(** * Linear moves of stepper motors: [stepper_math_linear.cpp]

    A shallow embedding of the four planning functions [prepare_line],
    [prepare_line_abs], [prepare_line_2d] and [prepare_line_2d_abs], with
    the C arithmetic they rely on written out:

    - [long] and [unsigned long] are 32 bits wide (the comment at lines
      90-92 of the source counts on [unsigned long] ending at 2^32);
      additions, subtractions, negations and products wrap around, a
      division by zero and the quotient [LONG_MIN / -1] are faults;
    - [double] is IEEE 754 binary64, taken from the kernel's primitive
      floats, so every expression below evaluates; the code converts
      doubles to [long] with no test of their range, and the conversion
      of a [double] that has no [long] value does not stop the program:
      it gives the most negative [long], as the truncating conversion
      instruction of x86 does;
    - [prepare_steps], the scheduler of the stepper library, is external:
      a planning function returns its status code together with the calls
      of [prepare_steps] it made, in order.

    The serial diagnostics under [DEBUG_SERIAL] only print values and are
    left out. *)

From Stdlib Require Import ZArith Bool List Lia Floats Ascii.
Import ListNotations.
Local Open Scope Z_scope.

(** ** Outcomes of a C computation *)

Inductive fault : Type :=
| DivisionByZero      (* [x / 0] on integers *)
| DivisionOverflow.   (* [LONG_MIN / -1] *)

Inductive exec (A : Type) : Type :=
| Done (a : A)
| Fault (f : fault).

Arguments Done {A} a.
Arguments Fault {A} f.

Definition bind {A B : Type} (m : exec A) (k : A -> exec B) : exec B :=
  match m with
  | Done a => k a
  | Fault f => Fault f
  end.

Notation "x <- m ;; k" := (bind m (fun x => k))
  (at level 61, m at next level, right associativity).

(** ** 32-bit integers *)

Definition LONG_MIN : Z := - 2 ^ 31.
Definition LONG_MAX : Z := 2 ^ 31 - 1.
Definition ULONG_MAX : Z := 2 ^ 32 - 1.

Definition is_long (z : Z) : bool := (LONG_MIN <=? z) && (z <=? LONG_MAX).

(** Conversion to [unsigned long]: reduction modulo 2^32. *)
Definition to_ulong (z : Z) : Z := z mod 2 ^ 32.

(** Conversion to [long]: the two's complement reading of the low 32 bits. *)
Definition to_long (z : Z) : Z := (z + 2 ^ 31) mod 2 ^ 32 - 2 ^ 31.

(** [a - b] and [- a] on [long]. *)
Definition lsub (a b : Z) : Z := to_long (a - b).
Definition lneg (a : Z) : Z := to_long (- a).

(** [a / b] on [long]: truncation toward zero. *)
Definition ldiv (a b : Z) : exec Z :=
  if b =? 0 then Fault DivisionByZero
  else if (a =? LONG_MIN) && (b =? -1) then Fault DivisionOverflow
  else Done (Z.quot a b).

(** [a * b] and [a / b] on [unsigned long]. *)
Definition umul (a b : Z) : Z := to_ulong (a * b).

Definition udiv (a b : Z) : exec Z :=
  if b =? 0 then Fault DivisionByZero else Done (a / b).

(** ** Doubles *)

(** [(double)z] for an integer of either 32-bit type: exact. *)
Definition double_of_Z (z : Z) : float :=
  if z <? 0 then PrimFloat.opp (PrimFloat.of_uint63 (Uint63.of_Z (- z)))
  else PrimFloat.of_uint63 (Uint63.of_Z z).

(** The integer part of a finite double, toward zero. *)
Definition truncate (s : bool) (m : positive) (e : Z) : Z :=
  let mag := if 0 <=? e then Z.pos m * 2 ^ e else Z.pos m / 2 ^ (- e) in
  if s then - mag else mag.

(** [(long)x]: the fraction is discarded.  When the integer part is not a
    [long], or [x] is an infinity or not a number, C leaves the result
    undefined and the program goes on: the value is [LONG_MIN] (the
    integer indefinite of the x86 conversion).  The conversion never
    faults; its type is that of the other C operations. *)
Definition long_of_double (x : float) : exec Z :=
  match Prim2SF x with
  | S754_zero _ => Done 0
  | S754_finite s m e =>
      let v := truncate s m e in
      Done (if is_long v then v else LONG_MIN)
  | S754_infinity _ => Done LONG_MIN
  | S754_nan => Done LONG_MIN
  end.

(** The sign of a double, read off its specification: a finite nonzero
    [x] has sign bit [s].  Zeros, infinities and NaN carry no
    constraint; their conversion to [long] is 0 or [LONG_MIN]. *)
Definition sf_sign (s : bool) (x : spec_float) : Prop :=
  match x with
  | S754_finite s' _ _ => s' = s
  | _ => True
  end.

(** ** The axis *)

(** Modelled from the spec: [struct stepper] is declared in [stepper.h] of
    the stepper library, which is not among the sources.  The fields read
    here are as the data model gives them: [distance_per_step] and
    [pulse_delay] are positive integers, [current_pos] is a signed integer.
    [distance_per_step] divides the signed displacement as a [long]
    (truncation toward zero, the sign is the direction), and the maximum
    speed is computed in [unsigned long] arithmetic, as the comment at
    lines 84-110 of the source works it out. *)
Record stepper : Type := {
  name : ascii;
  distance_per_step : Z;
  pulse_delay : Z;
  current_pos : Z
}.

(** A call of the external [prepare_steps(sm, steps, step_delay)]. *)
Inductive sched_call : Type :=
| prepare_steps (sm : stepper) (steps : Z) (step_delay : Z).

(** The error code, as the documentation of each entry point gives it. *)
Definition STEPPER_MATH_ERR_TOO_FAST : Z := 1.

(** ** Expressions shared by the planners *)

(** Lines 76, 212, 213: [steps >= 0 ? steps : -steps]. *)
Definition mod_steps_of (steps : Z) : Z :=
  if 0 <=? steps then steps else lneg steps.

(** Lines 111, 224, 225:
    [(sm->distance_per_step * 1000 / sm->pulse_delay) * 1000]. *)
Definition max_spd (sm : stepper) : exec Z :=
  q <- udiv (umul (distance_per_step sm) 1000) (pulse_delay sm) ;;
  Done (umul q 1000).

(** Lines 113-119 and 228-234: the speed the move is timed with; [None]
    stands for the early [return STEPPER_MATH_ERR_TOO_FAST]. *)
Definition resolve_spd (max_spd spd : Z) : option Z :=
  if spd =? 0 then Some max_spd
  else if max_spd <? spd then None
  else Some spd.

(** Lines 121 and 240: [((double)dl / (double)spd) * 1000000], to [long]. *)
Definition transit_time (dl spd : Z) : exec Z :=
  long_of_double
    (PrimFloat.mul (PrimFloat.div (double_of_Z dl) (double_of_Z spd))
                   (double_of_Z 1000000)).

(** Line 237: [sqrt((double)dl1*(double)dl1 + (double)dl2*(double)dl2)],
    to [long]. *)
Definition path_length (dl1 dl2 : Z) : exec Z :=
  long_of_double
    (PrimFloat.sqrt
       (PrimFloat.add (PrimFloat.mul (double_of_Z dl1) (double_of_Z dl1))
                      (PrimFloat.mul (double_of_Z dl2) (double_of_Z dl2)))).

(** Lines 124, 251, 252: [step_delay = dt / mod_steps], a [long] quotient
    stored in an [unsigned long]. *)
Definition step_delay_of (dt mod_steps : Z) : exec Z :=
  q <- ldiv dt mod_steps ;;
  Done (to_ulong q).

(** ** One axis *)

(** Lines 120-138, after the speed is resolved. *)
Definition line_timing (sm : stepper) (dl steps mod_steps spd : Z)
  : exec (Z * list sched_call) :=
  dt <- transit_time dl spd ;;
  step_delay <- step_delay_of dt mod_steps ;;
  Done (0, [prepare_steps sm steps step_delay]).

Definition prepare_line (sm : stepper) (dl spd : Z)
  : exec (Z * list sched_call) :=
  steps <- ldiv dl (distance_per_step sm) ;;
  let mod_steps := mod_steps_of steps in
  max_spd <- max_spd sm ;;
  match resolve_spd max_spd spd with
  | None => Done (STEPPER_MATH_ERR_TOO_FAST, [])
  | Some spd => line_timing sm dl steps mod_steps spd
  end.

Definition prepare_line_abs (sm : stepper) (cvalue spd : Z)
  : exec (Z * list sched_call) :=
  let dl := lsub cvalue (current_pos sm) in
  prepare_line sm dl spd.

(** ** Two axes *)

(** Lines 224-227: the smaller of the two maxima. *)
Definition max_spd_2d (sm1 sm2 : stepper) : exec Z :=
  max_spd_sm1 <- max_spd sm1 ;;
  max_spd_sm2 <- max_spd sm2 ;;
  Done (if max_spd_sm1 <? max_spd_sm2 then max_spd_sm1 else max_spd_sm2).

(** Lines 236-265, after the speed is resolved. *)
Definition line_2d_timing (sm1 sm2 : stepper)
    (dl1 dl2 steps_sm1 steps_sm2 mod_steps_sm1 mod_steps_sm2 spd : Z)
  : exec (Z * list sched_call) :=
  dl <- path_length dl1 dl2 ;;
  dt <- transit_time dl spd ;;
  step_delay_sm1 <- step_delay_of dt mod_steps_sm1 ;;
  step_delay_sm2 <- step_delay_of dt mod_steps_sm2 ;;
  Done (0, [prepare_steps sm1 steps_sm1 step_delay_sm1;
            prepare_steps sm2 steps_sm2 step_delay_sm2]).

Definition prepare_line_2d (sm1 sm2 : stepper) (dl1 dl2 spd : Z)
  : exec (Z * list sched_call) :=
  steps_sm1 <- ldiv dl1 (distance_per_step sm1) ;;
  steps_sm2 <- ldiv dl2 (distance_per_step sm2) ;;
  let mod_steps_sm1 := mod_steps_of steps_sm1 in
  let mod_steps_sm2 := mod_steps_of steps_sm2 in
  max_spd <- max_spd_2d sm1 sm2 ;;
  match resolve_spd max_spd spd with
  | None => Done (STEPPER_MATH_ERR_TOO_FAST, [])
  | Some spd =>
      line_2d_timing sm1 sm2 dl1 dl2 steps_sm1 steps_sm2
                     mod_steps_sm1 mod_steps_sm2 spd
  end.

Definition prepare_line_2d_abs (sm1 sm2 : stepper) (cvalue1 cvalue2 spd : Z)
  : exec (Z * list sched_call) :=
  let dl1 := lsub cvalue1 (current_pos sm1) in
  let dl2 := lsub cvalue2 (current_pos sm2) in
  prepare_line_2d sm1 sm2 dl1 dl2 spd.

(** ** The specification's side

    What the specification writes for the quantities the theorems compare
    the code with. *)

(** The exact maximum speed, [floor (distance_per_step * 1000000 / pulse_delay)]. *)
Definition spec_max_spd (d p : Z) : Z := d * 1000000 / p.

(** The absolute variants as the specification words them: the relative
    planner at [target - current_pos], an integer difference. *)
Definition spec_line_abs (sm : stepper) (target spd : Z)
  : exec (Z * list sched_call) :=
  prepare_line sm (target - current_pos sm) spd.

Definition spec_line_2d_abs (sm1 sm2 : stepper) (target1 target2 spd : Z)
  : exec (Z * list sched_call) :=
  prepare_line_2d sm1 sm2 (target1 - current_pos sm1)
                  (target2 - current_pos sm2) spd.

(** The axis of the worked examples. *)
Definition axis (c : ascii) (d p : Z) : stepper :=
  {| name := c; distance_per_step := d; pulse_delay := p; current_pos := 0 |}.

(** * Properties *)

(** ** The arithmetic *)

Lemma to_ulong_small (z : Z) : 0 <= z <= ULONG_MAX -> to_ulong z = z.
Proof.
  unfold to_ulong, ULONG_MAX. intros Hz.
  apply Z.mod_small. lia.
Qed.

Lemma to_long_small (z : Z) : LONG_MIN <= z <= LONG_MAX -> to_long z = z.
Proof.
  unfold to_long, LONG_MIN, LONG_MAX. intros Hz.
  rewrite Z.mod_small; lia.
Qed.

Lemma is_long_spec (z : Z) : is_long z = true <-> LONG_MIN <= z <= LONG_MAX.
Proof.
  unfold is_long. rewrite andb_true_iff, !Z.leb_le. reflexivity.
Qed.

Lemma ldiv_pos (a b : Z) : 0 < b -> ldiv a b = Done (Z.quot a b).
Proof.
  intros Hb. unfold ldiv.
  destruct (Z.eqb_spec b 0) as [E | _]; [lia |].
  destruct (Z.eqb_spec b (-1)) as [E | _]; [lia |].
  now rewrite andb_false_r.
Qed.

Lemma udiv_nonzero (a b : Z) : b <> 0 -> udiv a b = Done (a / b).
Proof.
  intros Hb. unfold udiv.
  now destruct (Z.eqb_spec b 0).
Qed.

(** The maximum speed is a value as soon as the pulse delay is not zero. *)
Lemma max_spd_value (sm : stepper) :
  pulse_delay sm <> 0 ->
  max_spd sm
  = Done (umul (umul (distance_per_step sm) 1000 / pulse_delay sm) 1000).
Proof.
  intros Hp. unfold max_spd.
  now rewrite (udiv_nonzero _ _ Hp).
Qed.

(** When neither product leaves [unsigned long], the three stages compute
    the integer expression. *)
Lemma max_spd_no_wrap (sm : stepper) :
  0 <= distance_per_step sm ->
  0 < pulse_delay sm ->
  distance_per_step sm * 1000 <= ULONG_MAX ->
  distance_per_step sm * 1000 / pulse_delay sm * 1000 <= ULONG_MAX ->
  max_spd sm
  = Done (distance_per_step sm * 1000 / pulse_delay sm * 1000).
Proof.
  intros Hd Hp H1 H2.
  rewrite max_spd_value by lia.
  unfold umul.
  rewrite (to_ulong_small (distance_per_step sm * 1000)) by lia.
  assert (0 <= distance_per_step sm * 1000 / pulse_delay sm)
    by (apply Z.div_pos; lia).
  rewrite to_ulong_small by lia.
  reflexivity.
Qed.

(** The two truncations lose less than one unit of the middle stage. *)
Lemma three_stage_error (d p : Z) :
  0 <= d -> 0 < p ->
  spec_max_spd d p - 1000 < d * 1000 / p * 1000 <= spec_max_spd d p.
Proof.
  intros Hd Hp. unfold spec_max_spd.
  set (q := d * 1000 / p).
  assert (Hlo : p * q <= d * 1000) by (apply Z.mul_div_le; lia).
  assert (Hhi : d * 1000 < p * Z.succ q)
    by (apply Z.mul_succ_div_gt; lia).
  split.
  - assert (d * 1000000 / p < q * 1000 + 1000); [| lia].
    apply Z.div_lt_upper_bound; [lia | nia].
  - apply Z.div_le_lower_bound; [lia | nia].
Qed.

(** ** Speed resolution *)

Lemma resolve_spd_zero (m : Z) : resolve_spd m 0 = Some m.
Proof. reflexivity. Qed.

Lemma resolve_spd_too_fast (m spd : Z) :
  spd <> 0 -> m < spd -> resolve_spd m spd = None.
Proof.
  intros H0 Hm. unfold resolve_spd.
  destruct (Z.eqb_spec spd 0); [contradiction |].
  destruct (Z.ltb_spec m spd); [reflexivity | lia].
Qed.

Lemma resolve_spd_within (m spd : Z) :
  spd <> 0 -> spd <= m -> resolve_spd m spd = Some spd.
Proof.
  intros H0 Hm. unfold resolve_spd.
  destruct (Z.eqb_spec spd 0); [contradiction |].
  destruct (Z.ltb_spec m spd); [lia | reflexivity].
Qed.

Lemma resolve_spd_none (m spd : Z) :
  resolve_spd m spd = None -> spd <> 0 /\ m < spd.
Proof.
  unfold resolve_spd.
  destruct (Z.eqb_spec spd 0); [discriminate |].
  destruct (Z.ltb_spec m spd); [auto | discriminate].
Qed.

Lemma max_spd_2d_min (sm1 sm2 : stepper) (m1 m2 : Z) :
  max_spd sm1 = Done m1 -> max_spd sm2 = Done m2 ->
  max_spd_2d sm1 sm2 = Done (Z.min m1 m2).
Proof.
  intros H1 H2. unfold max_spd_2d. rewrite H1, H2. cbn [bind].
  f_equal. destruct (Z.ltb_spec m1 m2); lia.
Qed.

(** ** The planners, unfolded once *)

Lemma prepare_line_unfold (sm : stepper) (dl spd steps m : Z) :
  ldiv dl (distance_per_step sm) = Done steps ->
  max_spd sm = Done m ->
  prepare_line sm dl spd
  = match resolve_spd m spd with
    | None => Done (STEPPER_MATH_ERR_TOO_FAST, [])
    | Some s => line_timing sm dl steps (mod_steps_of steps) s
    end.
Proof.
  intros Hs Hm. unfold prepare_line. now rewrite Hs, Hm.
Qed.

Lemma prepare_line_2d_unfold (sm1 sm2 : stepper) (dl1 dl2 spd s1 s2 m : Z) :
  ldiv dl1 (distance_per_step sm1) = Done s1 ->
  ldiv dl2 (distance_per_step sm2) = Done s2 ->
  max_spd_2d sm1 sm2 = Done m ->
  prepare_line_2d sm1 sm2 dl1 dl2 spd
  = match resolve_spd m spd with
    | None => Done (STEPPER_MATH_ERR_TOO_FAST, [])
    | Some s =>
        line_2d_timing sm1 sm2 dl1 dl2 s1 s2
                       (mod_steps_of s1) (mod_steps_of s2) s
    end.
Proof.
  intros H1 H2 Hm. unfold prepare_line_2d. now rewrite H1, H2, Hm.
Qed.

(** Once the speed is resolved, a planner that returns returns 0. *)
Lemma line_timing_code (sm : stepper) (dl steps ms spd code : Z)
    (calls : list sched_call) :
  line_timing sm dl steps ms spd = Done (code, calls) -> code = 0.
Proof.
  unfold line_timing.
  destruct (transit_time dl spd) as [dt |]; cbn [bind]; [| discriminate].
  destruct (step_delay_of dt ms); cbn [bind]; [| discriminate].
  now intros [= <- _].
Qed.

Lemma line_2d_timing_code (sm1 sm2 : stepper)
    (dl1 dl2 s1 s2 ms1 ms2 spd code : Z) (calls : list sched_call) :
  line_2d_timing sm1 sm2 dl1 dl2 s1 s2 ms1 ms2 spd = Done (code, calls) ->
  code = 0.
Proof.
  unfold line_2d_timing.
  destruct (path_length dl1 dl2) as [dl |]; cbn [bind]; [| discriminate].
  destruct (transit_time dl spd) as [dt |]; cbn [bind]; [| discriminate].
  destruct (step_delay_of dt ms1); cbn [bind]; [| discriminate].
  destruct (step_delay_of dt ms2); cbn [bind]; [| discriminate].
  now intros [= <- _].
Qed.

(** ** The maximum speed *)

(** Up to 100000 length units per step, a pulse delay of 24 microseconds or
    more keeps the last product inside [unsigned long]. *)
Lemma max_spd_fits_from_24 (d p : Z) :
  1 <= d <= 100000 -> 24 <= p -> d * 1000 / p * 1000 <= ULONG_MAX.
Proof.
  intros Hd Hp. unfold ULONG_MAX.
  assert (d * 1000 / p <= 4166667); [| lia].
  apply Z.div_le_upper_bound; lia.
Qed.

(** C1, as amended.  For [distance_per_step] in 1..100000 and [pulse_delay]
    in 1..10000 whose last product [(distance_per_step * 1000 / pulse_delay)
    * 1000] is at most 2^32 - 1: no stage of the computation wraps, the
    result is that integer expression, it lies in
    (exact - 1000, exact] for exact = floor (distance_per_step * 1000000 /
    pulse_delay), and it is 7500000 for 7500 and 1000. *)
Theorem max_spd_three_stage (sm : stepper) :
  let d := distance_per_step sm in
  let p := pulse_delay sm in
  1 <= d <= 100000 ->
  1 <= p <= 10000 ->
  d * 1000 / p * 1000 <= ULONG_MAX ->
  umul d 1000 = d * 1000 /\
  0 <= d * 1000 / p <= ULONG_MAX /\
  umul (d * 1000 / p) 1000 = d * 1000 / p * 1000 /\
  max_spd sm = Done (d * 1000 / p * 1000) /\
  spec_max_spd d p - 1000 < d * 1000 / p * 1000 <= spec_max_spd d p /\
  (d = 7500 -> p = 1000 -> max_spd sm = Done 7500000).
Proof.
  intros d p Hd Hp Hfit.
  assert (Hq : 0 <= d * 1000 / p) by (apply Z.div_pos; lia).
  assert (Hm : max_spd sm = Done (d * 1000 / p * 1000)).
  { apply max_spd_no_wrap; fold d; fold p; unfold ULONG_MAX in *; lia. }
  repeat split.
  - apply to_ulong_small. unfold ULONG_MAX. lia.
  - exact Hq.
  - lia.
  - apply to_ulong_small. lia.
  - exact Hm.
  - apply three_stage_error; lia.
  - apply three_stage_error; lia.
  - intros Ed Ep. rewrite Hm, Ed, Ep. reflexivity.
Qed.

Lemma max_spd_three_stage_witness :
  max_spd (axis "x" 7500 1000) = Done 7500000 /\
  spec_max_spd 7500 1000 - 1000 < 7500 * 1000 / 1000 * 1000
    <= spec_max_spd 7500 1000.
Proof.
  pose proof (max_spd_three_stage (axis "x" 7500 1000)) as H.
  cbv zeta in H. cbn [axis distance_per_step pulse_delay] in H.
  destruct H as (_ & _ & _ & _ & Hb & H7500).
  - lia.
  - lia.
  - vm_compute. discriminate.
  - split; [apply H7500; reflexivity | exact Hb].
Defined.

(** C1 as stated fails at the corner of its range: with 100000 length units
    per step and a pulse delay of 1 the last product is 10^11, beyond
    2^32 - 1; the code returns 10^11 mod 2^32, far below exact - 1000. *)
Lemma max_spd_wraps_counterexample :
  max_spd (axis "x" 100000 1) = Done 1215752192 /\
  ULONG_MAX < 100000 * 1000 / 1 * 1000 /\
  ~ (spec_max_spd 100000 1 - 1000 < 1215752192).
Proof.
  split; [vm_compute; reflexivity |].
  split; [vm_compute; reflexivity |].
  vm_compute. intros H. discriminate H.
Qed.

(** ** Requests above the maximum *)

(** C2.  On axes with positive [distance_per_step] and [pulse_delay], a
    nonzero speed above the maximum (of the axis; the smaller of the two
    maxima on two axes) makes each of the four entry points return
    [STEPPER_MATH_ERR_TOO_FAST] with no call of [prepare_steps]. *)
Theorem too_fast_no_call (sm1 sm2 : stepper)
    (dl1 dl2 cvalue1 cvalue2 spd : Z) :
  0 < distance_per_step sm1 -> 0 < pulse_delay sm1 ->
  0 < distance_per_step sm2 -> 0 < pulse_delay sm2 ->
  spd <> 0 ->
  exists m1 m2 : Z,
    max_spd sm1 = Done m1 /\ max_spd sm2 = Done m2 /\
    (m1 < spd ->
     prepare_line sm1 dl1 spd = Done (STEPPER_MATH_ERR_TOO_FAST, []) /\
     prepare_line_abs sm1 cvalue1 spd
     = Done (STEPPER_MATH_ERR_TOO_FAST, [])) /\
    (Z.min m1 m2 < spd ->
     prepare_line_2d sm1 sm2 dl1 dl2 spd
     = Done (STEPPER_MATH_ERR_TOO_FAST, []) /\
     prepare_line_2d_abs sm1 sm2 cvalue1 cvalue2 spd
     = Done (STEPPER_MATH_ERR_TOO_FAST, [])).
Proof.
  intros Hd1 Hp1 Hd2 Hp2 Hspd.
  pose proof (max_spd_value sm1 ltac:(lia)) as Hm1.
  pose proof (max_spd_value sm2 ltac:(lia)) as Hm2.
  eexists; eexists; split; [exact Hm1 | split; [exact Hm2 |]].
  split; intros Hlt.
  - assert (L : forall dl,
        prepare_line sm1 dl spd = Done (STEPPER_MATH_ERR_TOO_FAST, [])).
    { intros dl.
      rewrite (prepare_line_unfold sm1 dl spd _ _ (ldiv_pos _ _ Hd1) Hm1).
      now rewrite resolve_spd_too_fast. }
    split; [apply L | unfold prepare_line_abs; apply L].
  - assert (L : forall dl dl',
        prepare_line_2d sm1 sm2 dl dl' spd
        = Done (STEPPER_MATH_ERR_TOO_FAST, [])).
    { intros dl dl'.
      rewrite (prepare_line_2d_unfold sm1 sm2 dl dl' spd _ _ _
                 (ldiv_pos _ _ Hd1) (ldiv_pos _ _ Hd2)
                 (max_spd_2d_min _ _ _ _ Hm1 Hm2)).
      now rewrite resolve_spd_too_fast. }
    split; [apply L | unfold prepare_line_2d_abs; apply L].
Qed.

Lemma too_fast_no_call_witness :
  let x := axis "x" 1000 1000 in
  let y := axis "y" 7500 1000 in
  prepare_line x 10000 1000001 = Done (STEPPER_MATH_ERR_TOO_FAST, []) /\
  prepare_line_abs x 10000 1000001 = Done (STEPPER_MATH_ERR_TOO_FAST, []) /\
  prepare_line_2d x y 3000 4000 1000001
  = Done (STEPPER_MATH_ERR_TOO_FAST, []) /\
  prepare_line_2d_abs x y 3000 4000 1000001
  = Done (STEPPER_MATH_ERR_TOO_FAST, []).
Proof.
  intros x y.
  destruct (too_fast_no_call x y 10000 4000 10000 4000 1000001)
    as (m1 & m2 & H1 & H2 & Hline & H2d);
    try reflexivity; try discriminate.
  vm_compute in H1, H2.
  injection H1 as <-. injection H2 as <-.
  destruct Hline as [Ha Hb]; [reflexivity |].
  split; [exact Ha | split; [exact Hb |]].
  assert (Hmin : Z.min 1000000 7500000 < 1000001) by reflexivity.
  pose proof (too_fast_no_call x y 3000 4000 3000 4000 1000001) as T.
  destruct T as (n1 & n2 & N1 & N2 & _ & T2);
    try reflexivity; try discriminate.
  vm_compute in N1, N2.
  injection N1 as <-. injection N2 as <-.
  exact (T2 Hmin).
Defined.

(** ** The sentinel speed 0 *)

(** C3.  With [spd = 0] the speed the move is timed with is the maximum
    speed itself (of the axis, or the smaller of the two), and neither
    [prepare_line] nor [prepare_line_2d] returns
    [STEPPER_MATH_ERR_TOO_FAST]. *)
Theorem zero_speed_is_max (sm1 sm2 : stepper) (dl1 dl2 : Z) :
  (forall m, resolve_spd m 0 = Some m) /\
  (forall steps m,
      ldiv dl1 (distance_per_step sm1) = Done steps ->
      max_spd sm1 = Done m ->
      prepare_line sm1 dl1 0
      = line_timing sm1 dl1 steps (mod_steps_of steps) m) /\
  (forall s1 s2 m,
      ldiv dl1 (distance_per_step sm1) = Done s1 ->
      ldiv dl2 (distance_per_step sm2) = Done s2 ->
      max_spd_2d sm1 sm2 = Done m ->
      prepare_line_2d sm1 sm2 dl1 dl2 0
      = line_2d_timing sm1 sm2 dl1 dl2 s1 s2
                       (mod_steps_of s1) (mod_steps_of s2) m) /\
  (forall calls,
      prepare_line sm1 dl1 0 <> Done (STEPPER_MATH_ERR_TOO_FAST, calls)) /\
  (forall calls,
      prepare_line_2d sm1 sm2 dl1 dl2 0
      <> Done (STEPPER_MATH_ERR_TOO_FAST, calls)).
Proof.
  split; [exact resolve_spd_zero |].
  split.
  { intros steps m Hs Hm.
    now rewrite (prepare_line_unfold _ _ _ _ _ Hs Hm), resolve_spd_zero. }
  split.
  { intros s1 s2 m H1 H2 Hm.
    now rewrite (prepare_line_2d_unfold _ _ _ _ _ _ _ _ H1 H2 Hm),
      resolve_spd_zero. }
  split; intros calls.
  - destruct (ldiv dl1 (distance_per_step sm1)) as [steps |] eqn:Hs;
      [| unfold prepare_line; rewrite Hs; discriminate].
    destruct (max_spd sm1) as [m |] eqn:Hm;
      [| unfold prepare_line; rewrite Hs, Hm; discriminate].
    rewrite (prepare_line_unfold _ _ _ _ _ Hs Hm), resolve_spd_zero.
    intros H. apply line_timing_code in H. discriminate H.
  - destruct (ldiv dl1 (distance_per_step sm1)) as [s1 |] eqn:H1;
      [| unfold prepare_line_2d; rewrite H1; discriminate].
    destruct (ldiv dl2 (distance_per_step sm2)) as [s2 |] eqn:H2;
      [| unfold prepare_line_2d; rewrite H1, H2; discriminate].
    destruct (max_spd_2d sm1 sm2) as [m |] eqn:Hm;
      [| unfold prepare_line_2d; rewrite H1, H2, Hm; discriminate].
    rewrite (prepare_line_2d_unfold _ _ _ _ _ _ _ _ H1 H2 Hm),
      resolve_spd_zero.
    intros H. apply line_2d_timing_code in H. discriminate H.
Qed.

Lemma zero_speed_is_max_witness :
  let x := axis "x" 1000 1000 in
  let y := axis "y" 7500 1000 in
  prepare_line x 10000 0 = line_timing x 10000 10 10 1000000 /\
  prepare_line_2d x y 3000 15000 0
  = line_2d_timing x y 3000 15000 3 2 3 2 1000000.
Proof.
  intros x y.
  destruct (zero_speed_is_max x y 10000 15000) as (_ & Hline & _).
  destruct (zero_speed_is_max x y 3000 15000) as (_ & _ & H2d & _).
  split.
  - apply (Hline 10 1000000); reflexivity.
  - apply (H2d 3 2 1000000); reflexivity.
Defined.

(** ** The maximum of a move on two axes *)

(** C4.  [prepare_line_2d] resolves the speed against the smaller of the
    two maxima, each axis's maximum being the one [prepare_line] computes
    for it: [(distance_per_step * 1000 / pulse_delay) * 1000] in
    [unsigned long] arithmetic. *)
Theorem effective_max_is_min (sm1 sm2 : stepper) :
  pulse_delay sm1 <> 0 -> pulse_delay sm2 <> 0 ->
  exists m1 m2 : Z,
    m1 = umul (umul (distance_per_step sm1) 1000 / pulse_delay sm1) 1000 /\
    m2 = umul (umul (distance_per_step sm2) 1000 / pulse_delay sm2) 1000 /\
    max_spd sm1 = Done m1 /\
    max_spd sm2 = Done m2 /\
    max_spd_2d sm1 sm2 = Done (Z.min m1 m2) /\
    forall dl1 dl2 spd s1 s2,
      ldiv dl1 (distance_per_step sm1) = Done s1 ->
      ldiv dl2 (distance_per_step sm2) = Done s2 ->
      prepare_line_2d sm1 sm2 dl1 dl2 spd
      = match resolve_spd (Z.min m1 m2) spd with
        | None => Done (STEPPER_MATH_ERR_TOO_FAST, [])
        | Some s =>
            line_2d_timing sm1 sm2 dl1 dl2 s1 s2
                           (mod_steps_of s1) (mod_steps_of s2) s
        end.
Proof.
  intros Hp1 Hp2.
  pose proof (max_spd_value sm1 Hp1) as Hm1.
  pose proof (max_spd_value sm2 Hp2) as Hm2.
  pose proof (max_spd_2d_min _ _ _ _ Hm1 Hm2) as Hmin.
  eexists; eexists.
  split; [reflexivity |]. split; [reflexivity |].
  split; [exact Hm1 |]. split; [exact Hm2 |]. split; [exact Hmin |].
  intros dl1 dl2 spd s1 s2 H1 H2.
  exact (prepare_line_2d_unfold _ _ _ _ _ _ _ _ H1 H2 Hmin).
Qed.

Lemma effective_max_is_min_witness :
  max_spd (axis "x" 7500 1000) = Done 7500000 /\
  max_spd (axis "y" 1000 2000) = Done 500000 /\
  max_spd_2d (axis "x" 7500 1000) (axis "y" 1000 2000) = Done 500000.
Proof.
  destruct (effective_max_is_min (axis "x" 7500 1000) (axis "y" 1000 2000))
    as (m1 & m2 & E1 & E2 & H1 & H2 & Hmin & _);
    try discriminate.
  vm_compute in E1, E2. subst m1 m2.
  split; [exact H1 | split; [exact H2 | exact Hmin]].
Defined.

(** ** The divisor of the step delay *)

Lemma quot_abs_pos (a b : Z) : 0 < b -> Z.abs (Z.quot a b) = Z.abs a / b.
Proof.
  intros Hb.
  rewrite <- Z.quot_abs by lia.
  rewrite (Z.abs_eq b) by lia.
  apply Z.quot_div_nonneg; lia.
Qed.

Lemma quot_is_long (a b : Z) :
  0 < b -> LONG_MIN <= a <= LONG_MAX ->
  LONG_MIN <= Z.quot a b <= LONG_MAX.
Proof.
  intros Hb Ha.
  assert (Hq : Z.abs (Z.quot a b) <= Z.abs a).
  { rewrite quot_abs_pos by lia.
    apply Z.div_le_upper_bound; nia. }
  assert (Hs : a <= 0 -> Z.quot a b <= 0).
  { intros Hneg.
    pose proof (Z.quot_le_mono a 0 b Hb Hneg) as H.
    now rewrite Z.quot_0_l in H by lia. }
  unfold LONG_MIN, LONG_MAX in *. lia.
Qed.

(** At least one full step: the quotient is not zero. *)
Lemma quot_full_step (a b : Z) :
  0 < b -> b <= Z.abs a -> 1 <= Z.abs (Z.quot a b).
Proof.
  intros Hb Hab.
  rewrite quot_abs_pos by lia.
  apply Z.div_le_lower_bound; lia.
Qed.

(** Less than one step: the quotient is zero. *)
Lemma quot_short (a b : Z) : 0 < b -> Z.abs a < b -> Z.quot a b = 0.
Proof.
  intros Hb Hab. apply Z.quot_small_iff; lia.
Qed.

(** [mod_steps] is the absolute value, except at [LONG_MIN], which the
    negation sends to itself. *)
Lemma mod_steps_of_abs (steps : Z) :
  LONG_MIN < steps <= LONG_MAX -> mod_steps_of steps = Z.abs steps.
Proof.
  intros Hs. unfold mod_steps_of, lneg.
  destruct (Z.leb_spec 0 steps); [lia |].
  rewrite to_long_small; unfold LONG_MIN, LONG_MAX in *; lia.
Qed.

Lemma mod_steps_of_LONG_MIN : mod_steps_of LONG_MIN = LONG_MIN.
Proof. reflexivity. Qed.

Lemma mod_steps_of_divisor (steps : Z) :
  LONG_MIN <= steps <= LONG_MAX -> steps <> 0 ->
  mod_steps_of steps <> 0 /\ mod_steps_of steps <> -1.
Proof.
  intros Hs Hnz.
  destruct (Z.eq_dec steps LONG_MIN) as [-> | Hmin].
  - rewrite mod_steps_of_LONG_MIN. unfold LONG_MIN. lia.
  - rewrite mod_steps_of_abs by lia. lia.
Qed.

Lemma step_delay_of_defined (dt ms : Z) :
  ms <> 0 -> ms <> -1 ->
  step_delay_of dt ms = Done (to_ulong (Z.quot dt ms)).
Proof.
  intros H0 H1. unfold step_delay_of, ldiv.
  destruct (Z.eqb_spec ms 0); [contradiction |].
  destruct (Z.eqb_spec ms (-1)); [contradiction |].
  now rewrite andb_false_r.
Qed.

(** A conversion from [double] always gives a [long]. *)
Lemma long_of_double_total (x : float) :
  exists v, long_of_double x = Done v /\ LONG_MIN <= v <= LONG_MAX.
Proof.
  unfold long_of_double.
  assert (Hmin : LONG_MIN <= LONG_MIN <= LONG_MAX)
    by (unfold LONG_MIN, LONG_MAX; lia).
  destruct (Prim2SF x) as [s | s | | s m e]; eexists; split;
    try reflexivity; try exact Hmin.
  - unfold LONG_MIN, LONG_MAX. lia.
  - destruct (is_long (truncate s m e)) eqn:E;
      [now apply is_long_spec | exact Hmin].
Qed.

Lemma long_of_double_is_long (x : float) (v : Z) :
  long_of_double x = Done v -> LONG_MIN <= v <= LONG_MAX.
Proof.
  intros H. destruct (long_of_double_total x) as (v' & E & Hv).
  rewrite E in H. now injection H as <-.
Qed.

Lemma transit_time_total (dl spd : Z) :
  exists dt, transit_time dl spd = Done dt /\ LONG_MIN <= dt <= LONG_MAX.
Proof. apply long_of_double_total. Qed.

Lemma path_length_total (dl1 dl2 : Z) :
  exists dl, path_length dl1 dl2 = Done dl /\ LONG_MIN <= dl <= LONG_MAX.
Proof. apply long_of_double_total. Qed.

(** With a divisor that is neither 0 nor -1 the timing of a move is
    carried through: status 0 and the calls. *)
Lemma line_timing_value (sm : stepper) (dl steps ms spd : Z) :
  ms <> 0 -> ms <> -1 ->
  exists dt,
    transit_time dl spd = Done dt /\
    line_timing sm dl steps ms spd
    = Done (0, [prepare_steps sm steps (to_ulong (Z.quot dt ms))]).
Proof.
  intros H0 H1. unfold line_timing.
  destruct (transit_time_total dl spd) as (dt & Ht & _).
  exists dt. split; [exact Ht |].
  rewrite Ht. cbn [bind].
  now rewrite step_delay_of_defined by assumption.
Qed.

Lemma line_2d_timing_value (sm1 sm2 : stepper)
    (dl1 dl2 s1 s2 ms1 ms2 spd : Z) :
  ms1 <> 0 -> ms1 <> -1 -> ms2 <> 0 -> ms2 <> -1 ->
  exists dl dt,
    path_length dl1 dl2 = Done dl /\
    transit_time dl spd = Done dt /\
    line_2d_timing sm1 sm2 dl1 dl2 s1 s2 ms1 ms2 spd
    = Done (0, [prepare_steps sm1 s1 (to_ulong (Z.quot dt ms1));
                prepare_steps sm2 s2 (to_ulong (Z.quot dt ms2))]).
Proof.
  intros A0 A1 B0 B1. unfold line_2d_timing.
  destruct (path_length_total dl1 dl2) as (dl & Hl & _).
  destruct (transit_time_total dl spd) as (dt & Ht & _).
  exists dl, dt. split; [exact Hl |]. split; [exact Ht |].
  rewrite Hl. cbn [bind]. rewrite Ht. cbn [bind].
  now rewrite !step_delay_of_defined by assumption.
Qed.

(** With a zero divisor it ends in the division by zero. *)
Lemma line_timing_div0 (sm : stepper) (dl steps spd : Z) :
  line_timing sm dl steps 0 spd = Fault DivisionByZero.
Proof.
  unfold line_timing.
  destruct (transit_time_total dl spd) as (dt & Ht & _).
  rewrite Ht. reflexivity.
Qed.

Lemma line_2d_timing_div0 (sm1 sm2 : stepper)
    (dl1 dl2 s1 s2 ms1 ms2 spd : Z) :
  ms1 = 0 \/ (ms1 <> -1 /\ ms2 = 0) ->
  line_2d_timing sm1 sm2 dl1 dl2 s1 s2 ms1 ms2 spd = Fault DivisionByZero.
Proof.
  intros Hms. unfold line_2d_timing.
  destruct (path_length_total dl1 dl2) as (dl & Hl & _).
  destruct (transit_time_total dl spd) as (dt & Ht & _).
  rewrite Hl. cbn [bind]. rewrite Ht. cbn [bind].
  destruct Hms as [-> | [Hm1 ->]]; [reflexivity |].
  destruct (Z.eq_dec ms1 0) as [-> | Hnz]; [reflexivity |].
  now rewrite step_delay_of_defined by assumption.
Qed.

(** The quotient of a displacement is [LONG_MIN] only for the displacement
    [LONG_MIN] on an axis of one length unit per step. *)
Lemma steps_above_LONG_MIN (dl d : Z) :
  0 < d -> LONG_MIN <= dl <= LONG_MAX ->
  ~ (dl = LONG_MIN /\ d = 1) ->
  LONG_MIN < Z.quot dl d.
Proof.
  intros Hd Hdl Hcorner.
  pose proof (quot_abs_pos dl d Hd) as Habs.
  assert (Hq : Z.abs dl / d < 2 ^ 31).
  { apply Z.div_lt_upper_bound; [lia |].
    unfold LONG_MIN, LONG_MAX in *.
    destruct (Z.eq_dec d 1) as [-> | Hd1]; [lia | nia]. }
  unfold LONG_MIN. lia.
Qed.

(** Leaving out the displacement [LONG_MIN] on an axis of one unit per
    step: on axes with positive [distance_per_step] and [pulse_delay], a
    displacement of at least one full step gives the divisor
    [mod_steps = |steps| >= 1], the quotient [dt / mod_steps] is defined
    for every [dt], and the planner returns; a displacement shorter than
    one step gives [mod_steps = 0], and the planner, unless it returns
    [STEPPER_MATH_ERR_TOO_FAST], divides by zero. *)
Theorem step_delay_division (sm1 sm2 : stepper) (dl1 dl2 spd : Z) :
  let d1 := distance_per_step sm1 in
  let d2 := distance_per_step sm2 in
  let ms1 := mod_steps_of (Z.quot dl1 d1) in
  let ms2 := mod_steps_of (Z.quot dl2 d2) in
  0 < d1 -> 0 < pulse_delay sm1 ->
  0 < d2 -> 0 < pulse_delay sm2 ->
  LONG_MIN <= dl1 <= LONG_MAX -> LONG_MIN <= dl2 <= LONG_MAX ->
  ~ (dl1 = LONG_MIN /\ d1 = 1) -> ~ (dl2 = LONG_MIN /\ d2 = 1) ->
  (d1 <= Z.abs dl1 ->
     ms1 = Z.abs (Z.quot dl1 d1) /\ 1 <= ms1 /\
     (forall dt, step_delay_of dt ms1 = Done (to_ulong (Z.quot dt ms1))) /\
     exists code calls, prepare_line sm1 dl1 spd = Done (code, calls)) /\
  (Z.abs dl1 < d1 ->
     ms1 = 0 /\
     forall m, max_spd sm1 = Done m ->
       prepare_line sm1 dl1 spd
       = match resolve_spd m spd with
         | None => Done (STEPPER_MATH_ERR_TOO_FAST, [])
         | Some _ => Fault DivisionByZero
         end) /\
  (d1 <= Z.abs dl1 -> d2 <= Z.abs dl2 ->
     1 <= ms1 /\ 1 <= ms2 /\
     exists code calls,
       prepare_line_2d sm1 sm2 dl1 dl2 spd = Done (code, calls)) /\
  (Z.abs dl1 < d1 \/ Z.abs dl2 < d2 ->
     (ms1 = 0 \/ ms2 = 0) /\
     forall m, max_spd_2d sm1 sm2 = Done m ->
       prepare_line_2d sm1 sm2 dl1 dl2 spd
       = match resolve_spd m spd with
         | None => Done (STEPPER_MATH_ERR_TOO_FAST, [])
         | Some _ => Fault DivisionByZero
         end).
Proof.
  intros d1 d2 ms1 ms2 Hd1 Hp1 Hd2 Hp2 Hdl1 Hdl2 Hc1 Hc2.
  pose proof (ldiv_pos dl1 d1 Hd1) as L1.
  pose proof (ldiv_pos dl2 d2 Hd2) as L2.
  pose proof (max_spd_value sm1 ltac:(lia)) as M1.
  pose proof (max_spd_value sm2 ltac:(lia)) as M2.
  pose proof (max_spd_2d_min _ _ _ _ M1 M2) as M.
  assert (full : forall dl d, 0 < d -> LONG_MIN <= dl <= LONG_MAX ->
            ~ (dl = LONG_MIN /\ d = 1) -> d <= Z.abs dl ->
            mod_steps_of (Z.quot dl d) = Z.abs (Z.quot dl d) /\
            1 <= mod_steps_of (Z.quot dl d)).
  { intros dl d Hd Hdl Hcorner Hfull.
    pose proof (steps_above_LONG_MIN dl d Hd Hdl Hcorner) as Hgt.
    pose proof (quot_full_step dl d Hd Hfull) as Hge.
    pose proof (quot_is_long dl d Hd Hdl) as Hr.
    rewrite mod_steps_of_abs by lia. lia. }
  assert (short : forall dl d, 0 < d -> Z.abs dl < d ->
            mod_steps_of (Z.quot dl d) = 0).
  { intros dl d Hd Hshort. now rewrite quot_short. }
  split; [| split; [| split]].
  - intros Hfull.
    destruct (full dl1 d1 Hd1 Hdl1 Hc1 Hfull) as [E1 G1].
    split; [exact E1 |]. split; [exact G1 |]. split.
    + intros dt. apply step_delay_of_defined; fold ms1; lia.
    + rewrite (prepare_line_unfold sm1 dl1 spd _ _ L1 M1).
      destruct (resolve_spd _ spd) as [s |]; [| now eexists; eexists].
      destruct (line_timing_value sm1 dl1 (Z.quot dl1 d1) ms1 s
                  ltac:(lia) ltac:(lia)) as (dt & _ & E).
      fold ms1. rewrite E. now eexists; eexists.
  - intros Hshort.
    pose proof (short dl1 d1 Hd1 Hshort) as Z1.
    split; [exact Z1 |].
    intros m Hm.
    rewrite (prepare_line_unfold sm1 dl1 spd _ _ L1 Hm).
    destruct (resolve_spd m spd); [| reflexivity].
    rewrite Z1. apply line_timing_div0.
  - intros Hf1 Hf2.
    destruct (full dl1 d1 Hd1 Hdl1 Hc1 Hf1) as [_ G1].
    destruct (full dl2 d2 Hd2 Hdl2 Hc2 Hf2) as [_ G2].
    split; [exact G1 |]. split; [exact G2 |].
    rewrite (prepare_line_2d_unfold sm1 sm2 dl1 dl2 spd _ _ _ L1 L2 M).
    destruct (resolve_spd _ spd) as [s |]; [| now eexists; eexists].
    destruct (line_2d_timing_value sm1 sm2 dl1 dl2
                (Z.quot dl1 d1) (Z.quot dl2 d2) ms1 ms2 s
                ltac:(lia) ltac:(lia) ltac:(lia) ltac:(lia))
      as (dl & dt & _ & _ & E).
    fold ms1. fold ms2. rewrite E. now eexists; eexists.
  - intros Hshort.
    assert (Hms : ms1 = 0 \/ (ms1 <> -1 /\ ms2 = 0)).
    { destruct (Z_lt_le_dec (Z.abs dl1) d1) as [S1 | F1].
      - left. now apply short.
      - right. destruct (full dl1 d1 Hd1 Hdl1 Hc1 F1) as [_ G1].
        split; [fold ms1; lia |].
        destruct Hshort as [S1 | S2]; [lia | now apply short]. }
    split; [tauto |].
    intros m Hm.
    rewrite (prepare_line_2d_unfold sm1 sm2 dl1 dl2 spd _ _ _ L1 L2 Hm).
    destruct (resolve_spd m spd); [| reflexivity].
    now apply line_2d_timing_div0.
Qed.

Lemma step_delay_division_witness :
  let x := axis "x" 1000 1000 in
  let y := axis "y" 1000 1000 in
  1 <= mod_steps_of (Z.quot 3000 1000) /\
  (exists code calls, prepare_line x 3000 1000 = Done (code, calls)) /\
  (exists code calls,
      prepare_line_2d x y 3000 4000 1000 = Done (code, calls)) /\
  prepare_line x 500 1000 = Fault DivisionByZero /\
  prepare_line_2d x y 500 4000 1000 = Fault DivisionByZero.
Proof.
  intros x y.
  assert (R : LONG_MIN <= 3000 <= LONG_MAX /\ LONG_MIN <= 4000 <= LONG_MAX
              /\ LONG_MIN <= 500 <= LONG_MAX)
    by (unfold LONG_MIN, LONG_MAX; lia).
  destruct R as (R3 & R4 & R5).
  assert (C : forall dl, dl <> LONG_MIN -> ~ (dl = LONG_MIN /\ 1000 = 1))
    by (intros dl H [E _]; contradiction).
  destruct (step_delay_division x y 3000 4000 1000)
    as (Hfull & _ & Hfull2 & _); try reflexivity; try assumption;
    try (apply C; discriminate).
  destruct (step_delay_division x y 500 4000 1000)
    as (_ & Hshort & _ & Hshort2); try reflexivity; try assumption;
    try (apply C; discriminate).
  cbn [x y axis distance_per_step] in *.
  destruct Hfull as (_ & Hge & _ & Hline); [simpl; lia |].
  destruct Hfull2 as (_ & _ & H2d); [simpl; lia | simpl; lia |].
  destruct Hshort as (_ & Hdiv); [simpl; lia |].
  destruct Hshort2 as (_ & Hdiv2); [left; simpl; lia |].
  split; [exact Hge |]. split; [exact Hline |]. split; [exact H2d |].
  split.
  - apply (Hdiv 1000000). reflexivity.
  - apply (Hdiv2 1000000). reflexivity.
Defined.

(** C5, at the input where the code departs from it.  The displacement
    [LONG_MIN] on an axis of one unit per step is a full step and more and
    the call returns 0; yet [steps = LONG_MIN], the negation in
    [steps >= 0 ? steps : -steps] overflows and gives [LONG_MIN] back, and
    the divisor [mod_steps], meant as the absolute value of [steps], is
    -2147483648 and not at least 1. *)
Theorem mod_steps_at_LONG_MIN :
  let sm := axis "x" 1 1 in
  distance_per_step sm <= Z.abs LONG_MIN /\
  ldiv LONG_MIN (distance_per_step sm) = Done LONG_MIN /\
  mod_steps_of LONG_MIN = -2147483648 /\
  prepare_line sm LONG_MIN 0 = Done (0, [prepare_steps sm LONG_MIN 1]) /\
  ~ (1 <= mod_steps_of LONG_MIN).
Proof.
  intros sm.
  split; [vm_compute; discriminate |].
  split; [reflexivity |].
  split; [reflexivity |].
  split; [vm_compute; reflexivity |].
  vm_compute. intros H. apply H. reflexivity.
Qed.

(** ** Direction *)

(** The step count of the opposite displacement is the opposite count. *)
Lemma steps_negate (sm : stepper) (dl : Z) :
  0 < distance_per_step sm ->
  ldiv dl (distance_per_step sm) = Done (Z.quot dl (distance_per_step sm)) /\
  ldiv (- dl) (distance_per_step sm)
  = Done (- Z.quot dl (distance_per_step sm)).
Proof.
  intros Hd.
  rewrite !ldiv_pos by assumption.
  now rewrite Z.quot_opp_l by lia.
Qed.

(** C6, at the input where the code departs from it.  On an axis of 1000
    units per step and 1000 microseconds, at speed 1000: the displacement
    10000 gives 10 steps 1000000 microseconds apart; the displacement
    -10000 gives -10 steps, but its transit time is -10000000, the [long]
    quotient -1000000 is stored in an [unsigned long], and the step delay
    handed to [prepare_steps] is 4293967296. *)
Theorem negative_dl_step_delay (c : ascii) (pos : Z) :
  let sm := {| name := c; distance_per_step := 1000;
               pulse_delay := 1000; current_pos := pos |} in
  prepare_line sm 10000 1000
  = Done (0, [prepare_steps sm 10 1000000]) /\
  transit_time (-10000) 1000 = Done (-10000000) /\
  step_delay_of (-10000000) (mod_steps_of (-10)) = Done 4293967296 /\
  prepare_line sm (-10000) 1000
  = Done (0, [prepare_steps sm (-10) 4293967296]).
Proof.
  intros sm.
  split; [vm_compute; reflexivity |].
  split; [vm_compute; reflexivity |].
  split; [vm_compute; reflexivity |].
  vm_compute. reflexivity.
Qed.

(** ** Worked examples *)

(** C7.  One axis of 1000 units per step and 1000 microseconds, a
    displacement of 10000 at speed 1000: 10 steps, a transit time of
    10000000 microseconds, a step delay of 1000000, status 0. *)
Theorem single_axis_example (c : ascii) (pos : Z) :
  let sm := {| name := c; distance_per_step := 1000;
               pulse_delay := 1000; current_pos := pos |} in
  ldiv 10000 (distance_per_step sm) = Done 10 /\
  mod_steps_of 10 = 10 /\
  max_spd sm = Done 1000000 /\
  resolve_spd 1000000 1000 = Some 1000 /\
  transit_time 10000 1000 = Done 10000000 /\
  step_delay_of 10000000 10 = Done 1000000 /\
  prepare_line sm 10000 1000 = Done (0, [prepare_steps sm 10 1000000]).
Proof.
  intros sm.
  repeat (split; [vm_compute; reflexivity |]).
  vm_compute. reflexivity.
Qed.

(** C8.  Two equal axes of 1000 units per step and 1000 microseconds,
    displacements 3000 and 4000 at speed 0: the effective maximum is
    1000000, the path is 5000 long and takes 5000 microseconds; axis 1
    makes 3 steps 1666 microseconds apart, axis 2 makes 4 steps 1250
    apart, status 0. *)
Theorem two_axis_example (c1 c2 : ascii) (pos1 pos2 : Z) :
  let sm1 := {| name := c1; distance_per_step := 1000;
                pulse_delay := 1000; current_pos := pos1 |} in
  let sm2 := {| name := c2; distance_per_step := 1000;
                pulse_delay := 1000; current_pos := pos2 |} in
  max_spd_2d sm1 sm2 = Done 1000000 /\
  resolve_spd 1000000 0 = Some 1000000 /\
  path_length 3000 4000 = Done 5000 /\
  transit_time 5000 1000000 = Done 5000 /\
  ldiv 3000 (distance_per_step sm1) = Done 3 /\
  ldiv 4000 (distance_per_step sm2) = Done 4 /\
  step_delay_of 5000 (mod_steps_of 3) = Done 1666 /\
  step_delay_of 5000 (mod_steps_of 4) = Done 1250 /\
  prepare_line_2d sm1 sm2 3000 4000 0
  = Done (0, [prepare_steps sm1 3 1666; prepare_steps sm2 4 1250]).
Proof.
  intros sm1 sm2.
  repeat (split; [vm_compute; reflexivity |]).
  vm_compute. reflexivity.
Qed.

(** ** Absolute targets *)

(** C9.  Each absolute variant is the relative one at the displacement
    [cvalue - current_pos], subtracted as the code subtracts [long]s: same
    status, same calls of [prepare_steps].  Whenever the integer
    difference is a [long], that is the planner the specification
    gives. *)
Theorem abs_variants_delegate (sm1 sm2 : stepper) (cvalue1 cvalue2 spd : Z) :
  prepare_line_abs sm1 cvalue1 spd
  = prepare_line sm1 (lsub cvalue1 (current_pos sm1)) spd /\
  prepare_line_2d_abs sm1 sm2 cvalue1 cvalue2 spd
  = prepare_line_2d sm1 sm2 (lsub cvalue1 (current_pos sm1))
                    (lsub cvalue2 (current_pos sm2)) spd /\
  (LONG_MIN <= cvalue1 - current_pos sm1 <= LONG_MAX ->
   prepare_line_abs sm1 cvalue1 spd = spec_line_abs sm1 cvalue1 spd) /\
  (LONG_MIN <= cvalue1 - current_pos sm1 <= LONG_MAX ->
   LONG_MIN <= cvalue2 - current_pos sm2 <= LONG_MAX ->
   prepare_line_2d_abs sm1 sm2 cvalue1 cvalue2 spd
   = spec_line_2d_abs sm1 sm2 cvalue1 cvalue2 spd).
Proof.
  split; [reflexivity |]. split; [reflexivity |].
  split.
  - intros H1. unfold prepare_line_abs, spec_line_abs, lsub.
    now rewrite to_long_small.
  - intros H1 H2. unfold prepare_line_2d_abs, spec_line_2d_abs, lsub.
    now rewrite !to_long_small.
Qed.

Lemma abs_variants_delegate_witness :
  let x := {| name := "x"; distance_per_step := 1000;
              pulse_delay := 1000; current_pos := 2000 |} in
  let y := {| name := "y"; distance_per_step := 1000;
              pulse_delay := 1000; current_pos := -1000 |} in
  prepare_line_abs x 12000 1000 = prepare_line x 10000 1000 /\
  prepare_line_2d_abs x y 5000 3000 0 = prepare_line_2d x y 3000 4000 0.
Proof.
  intros x y.
  destruct (abs_variants_delegate x y 12000 3000 1000) as (_ & _ & H1 & _).
  destruct (abs_variants_delegate x y 5000 3000 0) as (_ & _ & _ & H2).
  split.
  - apply H1. vm_compute. split; discriminate.
  - apply H2; vm_compute; split; discriminate.
Defined.

(** ** Step delay against pulse delay *)

(** C10, at inputs where the code departs from it.  On axes of 1000 units
    per step and 1000 microseconds, at the maximum speed 1000000: for the
    displacement 1001000 the quotient 1001000 / 1000000 is rounded to a
    double just below 1.001, its product by 1000000 is truncated to
    1000999, and the 1001 steps are planned 999 microseconds apart, under
    the pulse delay; the same happens to axis 1 of a two-axis move. *)
Theorem step_delay_below_pulse_delay (c1 c2 : ascii) (pos1 pos2 : Z) :
  let sm1 := {| name := c1; distance_per_step := 1000;
                pulse_delay := 1000; current_pos := pos1 |} in
  let sm2 := {| name := c2; distance_per_step := 1000;
                pulse_delay := 1000; current_pos := pos2 |} in
  max_spd sm1 = Done 1000000 /\
  transit_time 1001000 1000000 = Done 1000999 /\
  prepare_line sm1 1001000 0
  = Done (0, [prepare_steps sm1 1001 999]) /\
  path_length 1001000 1000 = Done 1001000 /\
  prepare_line_2d sm1 sm2 1001000 1000 0
  = Done (0, [prepare_steps sm1 1001 999;
              prepare_steps sm2 1 1000999]) /\
  999 < pulse_delay sm1.
Proof.
  intros sm1 sm2.
  repeat (split; [vm_compute; reflexivity |]).
  vm_compute. reflexivity.
Qed.

(** ** Further properties of the code *)

(** [prepare_line] returns [STEPPER_MATH_ERR_TOO_FAST] exactly for a
    nonzero speed above the maximum of the axis. *)
Theorem too_fast_iff (sm : stepper) (dl spd m : Z) :
  0 < distance_per_step sm ->
  max_spd sm = Done m ->
  (exists calls,
      prepare_line sm dl spd = Done (STEPPER_MATH_ERR_TOO_FAST, calls))
  <-> spd <> 0 /\ m < spd.
Proof.
  intros Hd Hm.
  rewrite (prepare_line_unfold sm dl spd _ _ (ldiv_pos _ _ Hd) Hm).
  destruct (resolve_spd m spd) as [s |] eqn:Hr.
  - split.
    + intros [calls H]. apply line_timing_code in H. discriminate H.
    + intros [H0 Hlt]. rewrite resolve_spd_too_fast in Hr by assumption.
      discriminate Hr.
  - split.
    + intros _. now apply resolve_spd_none.
    + intros _. now exists [].
Qed.

Lemma too_fast_iff_witness :
  (exists calls,
      prepare_line (axis "x" 7500 1000) 15000 7500001
      = Done (STEPPER_MATH_ERR_TOO_FAST, calls))
  <-> 7500001 <> 0 /\ 7500000 < 7500001.
Proof.
  apply (too_fast_iff (axis "x" 7500 1000) 15000 7500001 7500000);
    reflexivity.
Defined.

(** Opposite displacements give opposite step counts and the same
    [mod_steps]. *)
Theorem steps_direction (sm : stepper) (dl : Z) :
  0 < distance_per_step sm ->
  LONG_MIN < dl <= LONG_MAX ->
  exists q : Z,
    ldiv dl (distance_per_step sm) = Done q /\
    ldiv (- dl) (distance_per_step sm) = Done (- q) /\
    mod_steps_of (- q) = mod_steps_of q.
Proof.
  intros Hd Hdl.
  destruct (steps_negate sm dl Hd) as [Hq Hn].
  exists (Z.quot dl (distance_per_step sm)).
  split; [exact Hq |]. split; [exact Hn |].
  pose proof (quot_is_long dl _ Hd ltac:(lia)) as Hr.
  assert (Hgt : LONG_MIN < Z.quot dl (distance_per_step sm)).
  { apply steps_above_LONG_MIN; [assumption | lia | lia]. }
  rewrite !mod_steps_of_abs; unfold LONG_MIN, LONG_MAX in *; lia.
Qed.

Lemma steps_direction_witness :
  exists q : Z,
    ldiv 10000 1000 = Done q /\ ldiv (- 10000) 1000 = Done (- q) /\
    mod_steps_of (- q) = mod_steps_of q.
Proof.
  apply (steps_direction (axis "x" 1000 1000) 10000).
  - reflexivity.
  - unfold LONG_MIN, LONG_MAX. lia.
Defined.

(** Up to 100000 units per step and from 24 microseconds of pulse delay,
    the three stages do not wrap and lose less than 1000 against the exact
    quotient. *)
Theorem max_spd_from_24 (sm : stepper) :
  1 <= distance_per_step sm <= 100000 ->
  24 <= pulse_delay sm ->
  exists v : Z,
    max_spd sm = Done v /\
    v = distance_per_step sm * 1000 / pulse_delay sm * 1000 /\
    spec_max_spd (distance_per_step sm) (pulse_delay sm) - 1000 < v
      <= spec_max_spd (distance_per_step sm) (pulse_delay sm).
Proof.
  intros Hd Hp.
  pose proof (max_spd_fits_from_24 _ _ Hd Hp) as Hfit.
  eexists. split; [| split; [reflexivity |]].
  - apply max_spd_no_wrap; unfold ULONG_MAX in *; lia.
  - apply three_stage_error; lia.
Qed.

Lemma max_spd_from_24_witness :
  exists v : Z,
    max_spd (axis "x" 100000 24) = Done v /\
    v = 100000 * 1000 / 24 * 1000 /\
    spec_max_spd 100000 24 - 1000 < v <= spec_max_spd 100000 24.
Proof.
  apply (max_spd_from_24 (axis "x" 100000 24)); simpl; lia.
Defined.

(** ** Signs of the doubles *)

Lemma binary_round_aux_sign (s : bool) (m e : Z) (l : location) :
  sf_sign s (binary_round_aux prec emax s m e l).
Proof.
  unfold binary_round_aux.
  destruct (shr_fexp prec emax m e l) as [mrs' e'].
  destruct (shr_fexp prec emax _ e' loc_Exact) as [mrs'' e''].
  destruct (shr_m mrs''); simpl; auto.
  destruct (_ <=? _); simpl; auto.
Qed.

Lemma SFdiv_sign (s1 s2 : bool) (x y : spec_float) :
  sf_sign s1 x -> sf_sign s2 y -> sf_sign (xorb s1 s2) (SF64div x y).
Proof.
  destruct x as [sx | sx | | sx mx ex], y as [sy | sy | | sy my ey];
    simpl; auto.
  intros -> ->.
  destruct (SFdiv_core_binary prec emax (Z.pos mx) ex (Z.pos my) ey)
    as [[mz ez] lz].
  apply binary_round_aux_sign.
Qed.

Lemma SFmul_sign (s1 s2 : bool) (x y : spec_float) :
  sf_sign s1 x -> sf_sign s2 y -> sf_sign (xorb s1 s2) (SF64mul x y).
Proof.
  destruct x as [sx | sx | | sx mx ex], y as [sy | sy | | sy my ey];
    simpl; auto.
  intros -> ->. apply binary_round_aux_sign.
Qed.

Lemma SFsqrt_sign (x : spec_float) : sf_sign false (SF64sqrt x).
Proof.
  destruct x as [sx | [|] | | [|] mx ex]; simpl; auto.
  destruct (SFsqrt_core_binary prec emax (Z.pos mx) ex) as [[mz ez] lz].
  apply binary_round_aux_sign.
Qed.

Lemma of_uint63_sign (n : Uint63.int) :
  sf_sign false (Prim2SF (PrimFloat.of_uint63 n)).
Proof.
  rewrite of_uint63_spec.
  pose proof (Uint63.to_Z_bounded n) as Hn.
  destruct (Uint63.to_Z n) as [| p | p]; simpl; auto; [| lia].
  unfold binary_round.
  destruct (shl_align _ _ _) as [mz ez].
  apply binary_round_aux_sign.
Qed.

(** [(double)z] has the sign of [z]. *)
Lemma double_of_Z_sign (z : Z) :
  sf_sign (z <? 0) (Prim2SF (double_of_Z z)).
Proof.
  unfold double_of_Z.
  destruct (z <? 0).
  - rewrite opp_spec.
    pose proof (of_uint63_sign (Uint63.of_Z (- z))) as H.
    destruct (Prim2SF _); simpl in *; auto. now subst.
  - apply of_uint63_sign.
Qed.

Lemma truncate_sign (s : bool) (m : positive) (e : Z) :
  if s then truncate s m e <= 0 else 0 <= truncate s m e.
Proof.
  unfold truncate.
  assert (0 <= (if 0 <=? e then Z.pos m * 2 ^ e else Z.pos m / 2 ^ (- e))).
  { destruct (Z.leb_spec 0 e).
    - apply Z.mul_nonneg_nonneg; [lia | apply Z.pow_nonneg; lia].
    - apply Z.div_pos; [lia | apply Z.pow_pos_nonneg; lia]. }
  destruct s; lia.
Qed.

Lemma long_of_double_sign (s : bool) (x : float) (v : Z) :
  sf_sign s (Prim2SF x) -> long_of_double x = Done v ->
  if s then v <= 0 else 0 <= v \/ v = LONG_MIN.
Proof.
  unfold long_of_double.
  assert (Hmin : if s then LONG_MIN <= 0 else 0 <= LONG_MIN \/ LONG_MIN = LONG_MIN)
    by (destruct s; [unfold LONG_MIN; lia | now right]).
  destruct (Prim2SF x) as [sx | sx | | sx mx ex]; simpl.
  - intros _ [= <-]. destruct s; lia.
  - intros _ [= <-]. exact Hmin.
  - intros _ [= <-]. exact Hmin.
  - intros ->. destruct (is_long _); intros [= <-]; [| exact Hmin].
    pose proof (truncate_sign s mx ex) as H. destruct s; auto.
Qed.

(** The transit time has the sign of the displacement it is computed
    from, unless the double has no [long] value. *)
Lemma transit_time_sign (dl spd dt : Z) :
  0 <= spd -> transit_time dl spd = Done dt ->
  if dl <? 0 then dt <= 0 else 0 <= dt \/ dt = LONG_MIN.
Proof.
  intros Hspd Ht. unfold transit_time in Ht.
  refine (long_of_double_sign (dl <? 0) _ _ _ Ht).
  rewrite mul_spec, div_spec.
  replace (dl <? 0) with (xorb (xorb (dl <? 0) (spd <? 0)) (1000000 <? 0)).
  - apply SFmul_sign; [apply SFdiv_sign |]; apply double_of_Z_sign.
  - destruct (Z.ltb_spec spd 0); [lia |].
    now rewrite xorb_false_r, xorb_false_r.
Qed.

Lemma path_length_sign (dl1 dl2 dl : Z) :
  path_length dl1 dl2 = Done dl -> 0 <= dl \/ dl = LONG_MIN.
Proof.
  intros H. unfold path_length in H.
  refine (long_of_double_sign false _ _ _ H).
  rewrite sqrt_spec. apply SFsqrt_sign.
Qed.

(** At speed 0 the quotient is an infinity or not a number, and so is its
    product by 1000000: the transit time is [LONG_MIN]. *)
Lemma transit_time_zero_speed (dl : Z) :
  transit_time dl 0 = Done LONG_MIN.
Proof.
  unfold transit_time, long_of_double.
  rewrite mul_spec, div_spec.
  let v := eval vm_compute in (Prim2SF (double_of_Z 0)) in
  change (Prim2SF (double_of_Z 0)) with v.
  let v := eval vm_compute in (Prim2SF (double_of_Z 1000000)) in
  change (Prim2SF (double_of_Z 1000000)) with v.
  destruct (Prim2SF (double_of_Z dl)) as [s | s | | s m e]; reflexivity.
Qed.

Lemma double_of_Z_opp (z : Z) :
  Prim2SF (double_of_Z (- z)) = SFopp (Prim2SF (double_of_Z z)) \/ z = 0.
Proof.
  unfold double_of_Z.
  destruct (Z.ltb_spec z 0), (Z.ltb_spec (- z) 0).
  - lia.
  - left. rewrite opp_spec.
    destruct (Prim2SF _) as [s | s | | s m e]; simpl;
      now rewrite ?negb_involutive.
  - left. rewrite opp_spec, Z.opp_involutive. reflexivity.
  - right. lia.
Qed.

Lemma square_opp (z : Z) :
  PrimFloat.mul (double_of_Z (- z)) (double_of_Z (- z))
  = PrimFloat.mul (double_of_Z z) (double_of_Z z).
Proof.
  destruct (double_of_Z_opp z) as [H | ->]; [| reflexivity].
  apply Prim2SF_inj. rewrite !mul_spec, H.
  destruct (Prim2SF (double_of_Z z)) as [s | s | | s m e]; simpl; auto;
    destruct s; reflexivity.
Qed.

(** The length of the path does not depend on the directions. *)
Lemma path_length_opp (dl1 dl2 : Z) :
  path_length (- dl1) dl2 = path_length dl1 dl2 /\
  path_length dl1 (- dl2) = path_length dl1 dl2.
Proof.
  unfold path_length. now rewrite !square_opp.
Qed.

(** ** What an outcome tells *)

Lemma to_ulong_range (z : Z) : 0 <= to_ulong z <= ULONG_MAX.
Proof.
  unfold to_ulong, ULONG_MAX.
  pose proof (Z.mod_pos_bound z (2 ^ 32) ltac:(lia)). lia.
Qed.

Lemma max_spd_range (sm : stepper) (m : Z) :
  max_spd sm = Done m -> 0 <= m <= ULONG_MAX.
Proof.
  unfold max_spd.
  destruct (udiv _ _) as [q |]; cbn [bind]; [| discriminate].
  intros [= <-]. apply to_ulong_range.
Qed.

Lemma max_spd_2d_range (sm1 sm2 : stepper) (m : Z) :
  max_spd_2d sm1 sm2 = Done m -> 0 <= m <= ULONG_MAX.
Proof.
  unfold max_spd_2d.
  destruct (max_spd sm1) as [m1 |] eqn:H1; cbn [bind]; [| discriminate].
  destruct (max_spd sm2) as [m2 |] eqn:H2; cbn [bind]; [| discriminate].
  apply max_spd_range in H1. apply max_spd_range in H2.
  intros [= <-]. destruct (m1 <? m2); assumption.
Qed.

Lemma resolve_spd_some (m spd s : Z) :
  resolve_spd m spd = Some s ->
  (spd = 0 /\ s = m) \/ (spd <> 0 /\ s = spd /\ spd <= m).
Proof.
  unfold resolve_spd.
  destruct (Z.eqb_spec spd 0); [intros [= <-]; auto |].
  destruct (Z.ltb_spec m spd); [discriminate |].
  intros [= <-]. auto.
Qed.

Lemma resolve_spd_nonneg (m spd s : Z) :
  0 <= m -> 0 <= spd -> resolve_spd m spd = Some s -> 0 <= s.
Proof.
  intros Hm Hspd H. apply resolve_spd_some in H. lia.
Qed.

Lemma step_delay_of_done (dt ms sd : Z) :
  step_delay_of dt ms = Done sd ->
  ms <> 0 /\ sd = to_ulong (Z.quot dt ms).
Proof.
  unfold step_delay_of, ldiv.
  destruct (Z.eqb_spec ms 0); [discriminate |].
  destruct ((dt =? LONG_MIN) && (ms =? -1)); [discriminate |].
  cbn [bind]. intros [= <-]. auto.
Qed.

Lemma mod_steps_of_zero (steps : Z) : mod_steps_of steps <> 0 -> steps <> 0.
Proof. intros H ->. now apply H. Qed.

(** The outcomes of [prepare_line] that are not faults. *)
Lemma prepare_line_done (sm : stepper) (dl spd code : Z)
    (calls : list sched_call) :
  prepare_line sm dl spd = Done (code, calls) ->
  exists steps m,
    ldiv dl (distance_per_step sm) = Done steps /\
    max_spd sm = Done m /\
    ((resolve_spd m spd = None /\
      code = STEPPER_MATH_ERR_TOO_FAST /\ calls = []) \/
     (exists s dt sd,
         resolve_spd m spd = Some s /\
         transit_time dl s = Done dt /\
         step_delay_of dt (mod_steps_of steps) = Done sd /\
         code = 0 /\ calls = [prepare_steps sm steps sd])).
Proof.
  unfold prepare_line.
  destruct (ldiv dl _) as [steps |]; cbn [bind]; [| discriminate].
  destruct (max_spd sm) as [m |]; cbn [bind]; [| discriminate].
  intros H. exists steps, m. split; [reflexivity |]. split; [reflexivity |].
  destruct (resolve_spd m spd) as [s |] eqn:Hr.
  - right. unfold line_timing in H.
    destruct (transit_time dl s) as [dt |] eqn:Ht; cbn [bind] in H;
      [| discriminate].
    destruct (step_delay_of dt _) as [sd |] eqn:Hsd; cbn [bind] in H;
      [| discriminate].
    injection H as <- <-. exists s, dt, sd. auto 10.
  - left. injection H as <- <-. auto.
Qed.

(** The outcomes of [prepare_line_2d] that are not faults. *)
Lemma prepare_line_2d_done (sm1 sm2 : stepper) (dl1 dl2 spd code : Z)
    (calls : list sched_call) :
  prepare_line_2d sm1 sm2 dl1 dl2 spd = Done (code, calls) ->
  exists s1 s2 m,
    ldiv dl1 (distance_per_step sm1) = Done s1 /\
    ldiv dl2 (distance_per_step sm2) = Done s2 /\
    max_spd_2d sm1 sm2 = Done m /\
    ((resolve_spd m spd = None /\
      code = STEPPER_MATH_ERR_TOO_FAST /\ calls = []) \/
     (exists s dl dt sd1 sd2,
         resolve_spd m spd = Some s /\
         path_length dl1 dl2 = Done dl /\
         transit_time dl s = Done dt /\
         step_delay_of dt (mod_steps_of s1) = Done sd1 /\
         step_delay_of dt (mod_steps_of s2) = Done sd2 /\
         code = 0 /\
         calls = [prepare_steps sm1 s1 sd1; prepare_steps sm2 s2 sd2])).
Proof.
  unfold prepare_line_2d.
  destruct (ldiv dl1 _) as [s1 |]; cbn [bind]; [| discriminate].
  destruct (ldiv dl2 _) as [s2 |]; cbn [bind]; [| discriminate].
  destruct (max_spd_2d sm1 sm2) as [m |]; cbn [bind]; [| discriminate].
  intros H. exists s1, s2, m.
  split; [reflexivity |]. split; [reflexivity |]. split; [reflexivity |].
  destruct (resolve_spd m spd) as [s |] eqn:Hr.
  - right. unfold line_2d_timing in H.
    destruct (path_length dl1 dl2) as [dl |] eqn:Hl; cbn [bind] in H;
      [| discriminate].
    destruct (transit_time dl s) as [dt |] eqn:Ht; cbn [bind] in H;
      [| discriminate].
    destruct (step_delay_of dt (mod_steps_of s1)) as [sd1 |] eqn:E1;
      cbn [bind] in H; [| discriminate].
    destruct (step_delay_of dt (mod_steps_of s2)) as [sd2 |] eqn:E2;
      cbn [bind] in H; [| discriminate].
    injection H as <- <-. exists s, dl, dt, sd1, sd2. auto 10.
  - left. injection H as <- <-. auto.
Qed.

(** The step count falls short of the displacement by less than one step
    and points the same way. *)
Lemma steps_truncation (dl d : Z) :
  0 < d ->
  Z.abs (Z.quot dl d) * d <= Z.abs dl < Z.abs (Z.quot dl d) * d + d /\
  0 <= Z.quot dl d * dl.
Proof.
  intros Hd.
  rewrite quot_abs_pos by assumption.
  pose proof (Z.mul_div_le (Z.abs dl) d Hd) as Hlo.
  pose proof (Z.mul_succ_div_gt (Z.abs dl) d Hd) as Hhi.
  split; [lia |].
  destruct (Z_le_gt_dec 0 dl) as [Hpos | Hneg].
  - pose proof (Z.quot_pos dl d Hpos Hd). nia.
  - pose proof (Z.quot_le_mono dl 0 d Hd ltac:(lia)) as H.
    rewrite Z.quot_0_l in H by lia. nia.
Qed.

(** The delay of a non-negative transit time over a positive step
    count. *)
Lemma delay_bounds (dt ms : Z) :
  0 <= dt <= LONG_MAX -> 1 <= ms ->
  to_ulong (Z.quot dt ms) = Z.quot dt ms /\
  0 <= Z.quot dt ms <= LONG_MAX /\
  Z.quot dt ms * ms <= dt < Z.quot dt ms * ms + ms.
Proof.
  intros Hdt Hms.
  rewrite Z.quot_div_nonneg by lia.
  pose proof (Z.mul_div_le dt ms ltac:(lia)) as Hlo.
  pose proof (Z.mul_succ_div_gt dt ms ltac:(lia)) as Hhi.
  assert (Hq : 0 <= dt / ms) by (apply Z.div_pos; lia).
  assert (Hle : dt / ms <= dt) by (apply Z.div_le_upper_bound; nia).
  split; [| split; lia].
  apply to_ulong_small. unfold ULONG_MAX, LONG_MAX in *. lia.
Qed.

(** On two axes the request is too fast exactly when it is nonzero and
    above the maximum of either axis. *)
Theorem too_fast_2d_iff (sm1 sm2 : stepper) (dl1 dl2 spd m1 m2 : Z) :
  0 < distance_per_step sm1 -> 0 < distance_per_step sm2 ->
  max_spd sm1 = Done m1 -> max_spd sm2 = Done m2 ->
  (exists calls,
      prepare_line_2d sm1 sm2 dl1 dl2 spd
      = Done (STEPPER_MATH_ERR_TOO_FAST, calls))
  <-> spd <> 0 /\ (m1 < spd \/ m2 < spd).
Proof.
  intros Hd1 Hd2 H1 H2.
  rewrite (prepare_line_2d_unfold sm1 sm2 dl1 dl2 spd _ _ _
             (ldiv_pos _ _ Hd1) (ldiv_pos _ _ Hd2)
             (max_spd_2d_min _ _ _ _ H1 H2)).
  destruct (resolve_spd (Z.min m1 m2) spd) as [s |] eqn:Hr.
  - split.
    + intros [calls H]. apply line_2d_timing_code in H. discriminate H.
    + intros [H0 Hlt].
      rewrite resolve_spd_too_fast in Hr by lia. discriminate Hr.
  - apply resolve_spd_none in Hr. split.
    + intros _. lia.
    + intros _. now exists [].
Qed.

Lemma too_fast_2d_iff_witness :
  (exists calls,
      prepare_line_2d (axis "x" 7500 1000) (axis "y" 1000 2000)
                      3000 4000 600000
      = Done (STEPPER_MATH_ERR_TOO_FAST, calls))
  <-> 600000 <> 0 /\ (7500000 < 600000 \/ 500000 < 600000).
Proof.
  apply (too_fast_2d_iff (axis "x" 7500 1000) (axis "y" 1000 2000)
           3000 4000 600000 7500000 500000); reflexivity.
Defined.

(** Whatever [prepare_line] returns on an axis with a positive step: either
    the error code with no call, for a nonzero speed; or 0 with exactly one
    call of [prepare_steps], on that axis, whose step count is the
    displacement divided by the step toward zero: it is not zero, points
    the way of the displacement, and covers the displacement short of less
    than one step. *)
Theorem line_plan_shape (sm : stepper) (dl spd code : Z)
    (calls : list sched_call) :
  0 < distance_per_step sm ->
  prepare_line sm dl spd = Done (code, calls) ->
  (code = STEPPER_MATH_ERR_TOO_FAST /\ calls = [] /\ spd <> 0) \/
  (code = 0 /\
   exists steps sd,
     calls = [prepare_steps sm steps sd] /\
     steps = Z.quot dl (distance_per_step sm) /\
     0 <= sd <= ULONG_MAX /\
     0 < steps * dl /\
     Z.abs steps * distance_per_step sm <= Z.abs dl
       < Z.abs steps * distance_per_step sm + distance_per_step sm).
Proof.
  intros Hd H.
  apply prepare_line_done in H.
  destruct H as (steps & m & Hs & Hm & [(Hr & -> & ->) | H]).
  - left. apply resolve_spd_none in Hr. tauto.
  - destruct H as (s & dt & sd & Hr & Ht & Hsd & -> & ->).
    right. split; [reflexivity |].
    rewrite ldiv_pos in Hs by assumption. injection Hs as <-.
    apply step_delay_of_done in Hsd. destruct Hsd as [Hms ->].
    apply mod_steps_of_zero in Hms.
    destruct (steps_truncation dl _ Hd) as [Htr Hsg].
    eexists; eexists. split; [reflexivity |]. split; [reflexivity |].
    split; [apply to_ulong_range |]. split; [| exact Htr].
    assert (dl <> 0) by lia.
    pose proof (proj1 (Z.neq_mul_0 _ _) (conj Hms H)). lia.
Qed.

Lemma line_plan_shape_witness :
  exists steps sd,
    [prepare_steps (axis "x" 1000 1000) 10 1050000]
    = [prepare_steps (axis "x" 1000 1000) steps sd] /\
    steps = Z.quot 10500 1000 /\
    0 <= sd <= ULONG_MAX /\
    0 < steps * 10500 /\
    Z.abs steps * 1000 <= Z.abs 10500 < Z.abs steps * 1000 + 1000.
Proof.
  destruct (line_plan_shape (axis "x" 1000 1000) 10500 1000 0
              [prepare_steps (axis "x" 1000 1000) 10 1050000])
    as [(E & _) | (_ & H)].
  - reflexivity.
  - vm_compute. reflexivity.
  - discriminate E.
  - exact H.
Defined.

(** Whatever [prepare_line_2d] returns on axes with positive steps: either
    the error code with no call, for a nonzero speed; or 0 with exactly two
    calls of [prepare_steps], axis 1 first, each with a nonzero step count
    that points the way of its displacement and covers it short of less
    than one step. *)
Theorem line_2d_plan_shape (sm1 sm2 : stepper) (dl1 dl2 spd code : Z)
    (calls : list sched_call) :
  0 < distance_per_step sm1 -> 0 < distance_per_step sm2 ->
  prepare_line_2d sm1 sm2 dl1 dl2 spd = Done (code, calls) ->
  (code = STEPPER_MATH_ERR_TOO_FAST /\ calls = [] /\ spd <> 0) \/
  (code = 0 /\
   exists s1 s2 sd1 sd2,
     calls = [prepare_steps sm1 s1 sd1; prepare_steps sm2 s2 sd2] /\
     s1 = Z.quot dl1 (distance_per_step sm1) /\
     s2 = Z.quot dl2 (distance_per_step sm2) /\
     0 <= sd1 <= ULONG_MAX /\ 0 <= sd2 <= ULONG_MAX /\
     0 < s1 * dl1 /\ 0 < s2 * dl2 /\
     Z.abs s1 * distance_per_step sm1 <= Z.abs dl1
       < Z.abs s1 * distance_per_step sm1 + distance_per_step sm1 /\
     Z.abs s2 * distance_per_step sm2 <= Z.abs dl2
       < Z.abs s2 * distance_per_step sm2 + distance_per_step sm2).
Proof.
  intros Hd1 Hd2 H.
  apply prepare_line_2d_done in H.
  destruct H as (s1 & s2 & m & Hs1 & Hs2 & Hm & [(Hr & -> & ->) | H]).
  - left. apply resolve_spd_none in Hr. tauto.
  - destruct H as (s & dl & dt & sd1 & sd2 & Hr & Hl & Ht & E1 & E2 & -> & ->).
    right. split; [reflexivity |].
    rewrite ldiv_pos in Hs1, Hs2 by assumption.
    injection Hs1 as <-. injection Hs2 as <-.
    apply step_delay_of_done in E1, E2.
    destruct E1 as [N1 ->], E2 as [N2 ->].
    apply mod_steps_of_zero in N1, N2.
    destruct (steps_truncation dl1 _ Hd1) as [T1 G1].
    destruct (steps_truncation dl2 _ Hd2) as [T2 G2].
    do 4 eexists. split; [reflexivity |].
    split; [reflexivity |]. split; [reflexivity |].
    split; [apply to_ulong_range |]. split; [apply to_ulong_range |].
    assert (dl1 <> 0) by lia. assert (dl2 <> 0) by lia.
    pose proof (proj1 (Z.neq_mul_0 _ _) (conj N1 H)).
    pose proof (proj1 (Z.neq_mul_0 _ _) (conj N2 H0)).
    repeat split; lia.
Qed.

Lemma line_2d_plan_shape_witness :
  exists s1 s2 sd1 sd2,
    [prepare_steps (axis "x" 1000 1000) (-3) 1666;
     prepare_steps (axis "y" 1000 1000) 4 1250]
    = [prepare_steps (axis "x" 1000 1000) s1 sd1;
       prepare_steps (axis "y" 1000 1000) s2 sd2] /\
    s1 = Z.quot (-3000) 1000 /\ s2 = Z.quot 4000 1000 /\
    0 <= sd1 <= ULONG_MAX /\ 0 <= sd2 <= ULONG_MAX /\
    0 < s1 * -3000 /\ 0 < s2 * 4000 /\
    Z.abs s1 * 1000 <= Z.abs (-3000) < Z.abs s1 * 1000 + 1000 /\
    Z.abs s2 * 1000 <= Z.abs 4000 < Z.abs s2 * 1000 + 1000.
Proof.
  destruct (line_2d_plan_shape (axis "x" 1000 1000) (axis "y" 1000 1000)
              (-3000) 4000 0 0
              [prepare_steps (axis "x" 1000 1000) (-3) 1666;
               prepare_steps (axis "y" 1000 1000) 4 1250])
    as [(E & _) | (_ & H)].
  - reflexivity.
  - reflexivity.
  - vm_compute. reflexivity.
  - discriminate E.
  - exact H.
Defined.

(** ** The sentinel and the maximum *)

Lemma resolve_spd_max (m : Z) : resolve_spd m m = Some m.
Proof.
  unfold resolve_spd.
  destruct (Z.eqb_spec m 0); [reflexivity |].
  now rewrite Z.ltb_irrefl.
Qed.

(** Asking for the maximum speed by its value is asking for it by the
    sentinel 0: the outcomes are equal, on one axis and on two. *)
Theorem sentinel_is_max (sm1 sm2 : stepper) (dl1 dl2 : Z) :
  (forall m, max_spd sm1 = Done m ->
     prepare_line sm1 dl1 m = prepare_line sm1 dl1 0) /\
  (forall m, max_spd_2d sm1 sm2 = Done m ->
     prepare_line_2d sm1 sm2 dl1 dl2 m
     = prepare_line_2d sm1 sm2 dl1 dl2 0).
Proof.
  split; intros m Hm.
  - unfold prepare_line. rewrite Hm. cbn [bind].
    now rewrite resolve_spd_max, resolve_spd_zero.
  - unfold prepare_line_2d. rewrite Hm. cbn [bind].
    now rewrite resolve_spd_max, resolve_spd_zero.
Qed.

Lemma sentinel_is_max_witness :
  prepare_line (axis "x" 7500 1000) 15000 7500000
  = prepare_line (axis "x" 7500 1000) 15000 0 /\
  prepare_line_2d (axis "x" 7500 1000) (axis "y" 1000 2000)
                  15000 4000 500000
  = prepare_line_2d (axis "x" 7500 1000) (axis "y" 1000 2000)
                    15000 4000 0.
Proof.
  destruct (sentinel_is_max (axis "x" 7500 1000) (axis "y" 1000 2000)
              15000 4000) as [H1 H2].
  split; [apply H1 | apply H2]; reflexivity.
Defined.

(** The three stages lose nothing when the pulse delay divides 1000 times
    the step and nothing wraps: the maximum speed is the exact quotient.
    That is the case of the usual pulse delay of 1000 microseconds. *)
Theorem max_spd_exact_when_divides (sm : stepper) :
  0 <= distance_per_step sm ->
  0 < pulse_delay sm ->
  (distance_per_step sm * 1000) mod pulse_delay sm = 0 ->
  distance_per_step sm * 1000 <= ULONG_MAX ->
  distance_per_step sm * 1000 / pulse_delay sm * 1000 <= ULONG_MAX ->
  max_spd sm = Done (spec_max_spd (distance_per_step sm) (pulse_delay sm)).
Proof.
  intros Hd Hp Hdiv H1 H2.
  rewrite max_spd_no_wrap by assumption.
  f_equal. unfold spec_max_spd.
  apply Z.div_unique_exact; [lia |].
  pose proof (Z.div_mod (distance_per_step sm * 1000) (pulse_delay sm)
                ltac:(lia)) as E.
  rewrite Hdiv in E. lia.
Qed.

Lemma max_spd_exact_when_divides_witness :
  max_spd (axis "x" 7500 1000) = Done (spec_max_spd 7500 1000).
Proof.
  apply (max_spd_exact_when_divides (axis "x" 7500 1000));
    vm_compute; congruence.
Defined.

(** ** Moves that cannot be planned *)

Lemma no_plan_with_zero_steps (sm : stepper) (dl spd : Z)
    (calls : list sched_call) :
  ldiv dl (distance_per_step sm) = Done 0 ->
  prepare_line sm dl spd <> Done (0, calls).
Proof.
  intros Hs H.
  apply prepare_line_done in H.
  destruct H as (steps & m & Hs' & _ & [(_ & E & _) | H]).
  - discriminate E.
  - destruct H as (s & dt & sd & _ & _ & Hsd & _).
    rewrite Hs in Hs'. injection Hs' as <-.
    apply step_delay_of_done in Hsd. now destruct Hsd.
Qed.

Lemma no_plan_2d_with_zero_steps (sm1 sm2 : stepper) (dl1 dl2 spd : Z)
    (calls : list sched_call) :
  ldiv dl1 (distance_per_step sm1) = Done 0 \/
  ldiv dl2 (distance_per_step sm2) = Done 0 ->
  prepare_line_2d sm1 sm2 dl1 dl2 spd <> Done (0, calls).
Proof.
  intros Hs H.
  apply prepare_line_2d_done in H.
  destruct H as (s1 & s2 & m & H1 & H2 & _ & [(_ & E & _) | H]).
  - discriminate E.
  - destruct H as (s & dl & dt & sd1 & sd2 & _ & _ & _ & E1 & E2 & _).
    apply step_delay_of_done in E1, E2.
    destruct E1 as [N1 _], E2 as [N2 _].
    destruct Hs as [Hs | Hs].
    + rewrite Hs in H1. injection H1 as <-. now apply N1.
    + rewrite Hs in H2. injection H2 as <-. now apply N2.
Qed.

(** No plan comes out of a request that asks for less than one step: a
    displacement shorter than the step; an absolute target that is the
    current position; on two axes, a move along one axis only, or any move
    with one displacement shorter than the step of its axis. *)
Theorem no_plan_without_a_step (sm1 sm2 : stepper) (dl1 dl2 spd : Z)
    (calls : list sched_call) :
  0 < distance_per_step sm1 -> 0 < distance_per_step sm2 ->
  (Z.abs dl1 < distance_per_step sm1 ->
     prepare_line sm1 dl1 spd <> Done (0, calls)) /\
  prepare_line_abs sm1 (current_pos sm1) spd <> Done (0, calls) /\
  (Z.abs dl1 < distance_per_step sm1 \/ Z.abs dl2 < distance_per_step sm2 ->
     prepare_line_2d sm1 sm2 dl1 dl2 spd <> Done (0, calls)) /\
  prepare_line_2d sm1 sm2 dl1 0 spd <> Done (0, calls) /\
  prepare_line_2d sm1 sm2 0 dl2 spd <> Done (0, calls) /\
  prepare_line_2d_abs sm1 sm2 (current_pos sm1) (current_pos sm2) spd
  <> Done (0, calls).
Proof.
  intros Hd1 Hd2.
  assert (S : forall dl d, 0 < d -> Z.abs dl < d -> ldiv dl d = Done 0).
  { intros dl d Hd Hs. now rewrite ldiv_pos, quot_short. }
  assert (Z0 : forall c, lsub c c = 0).
  { intros c. unfold lsub. now rewrite Z.sub_diag. }
  split; [| split; [| split; [| split; [| split]]]].
  - intros Hs. apply no_plan_with_zero_steps. now apply S.
  - unfold prepare_line_abs. rewrite Z0.
    apply no_plan_with_zero_steps. apply S; simpl; lia.
  - intros [Hs | Hs]; apply no_plan_2d_with_zero_steps;
      [left | right]; now apply S.
  - apply no_plan_2d_with_zero_steps. right. apply S; simpl; lia.
  - apply no_plan_2d_with_zero_steps. left. apply S; simpl; lia.
  - unfold prepare_line_2d_abs. rewrite !Z0.
    apply no_plan_2d_with_zero_steps. left. apply S; simpl; lia.
Qed.

Lemma no_plan_without_a_step_witness :
  prepare_line (axis "x" 1000 1000) 999 1000 <> Done (0, []) /\
  prepare_line_2d (axis "x" 1000 1000) (axis "y" 1000 1000) 5000 0 1000
  <> Done (0, []).
Proof.
  destruct (no_plan_without_a_step (axis "x" 1000 1000) (axis "y" 1000 1000)
              999 0 1000 []) as (H1 & _); try reflexivity.
  destruct (no_plan_without_a_step (axis "x" 1000 1000) (axis "y" 1000 1000)
              5000 0 1000 []) as (_ & _ & _ & H2 & _); try reflexivity.
  split; [apply H1; reflexivity | exact H2].
Defined.

(** ** Delays against the transit time *)

Lemma transit_time_is_long (dl spd dt : Z) :
  transit_time dl spd = Done dt -> LONG_MIN <= dt <= LONG_MAX.
Proof. apply long_of_double_is_long. Qed.

(** The delay an axis gets out of a non-negative transit time: the steps
    take the transit time, short of less than one microsecond per step. *)
Lemma delay_of_nonneg_time (dt steps : Z) :
  0 <= dt <= LONG_MAX -> LONG_MIN <= steps <= LONG_MAX -> steps <> 0 ->
  let sd := to_ulong (Z.quot dt (mod_steps_of steps)) in
  0 <= sd <= LONG_MAX /\
  sd * Z.abs steps <= dt < sd * Z.abs steps + Z.abs steps.
Proof.
  intros Hdt Hs Hnz sd. subst sd.
  destruct (Z.eq_dec steps LONG_MIN) as [-> | Hmin].
  - rewrite mod_steps_of_LONG_MIN.
    rewrite (proj2 (Z.quot_small_iff dt LONG_MIN ltac:(discriminate)))
      by (unfold LONG_MIN, LONG_MAX in *; lia).
    unfold to_ulong. rewrite Z.mod_0_l by lia.
    unfold LONG_MIN, LONG_MAX in *. lia.
  - rewrite mod_steps_of_abs by lia.
    destruct (delay_bounds dt (Z.abs steps) Hdt ltac:(lia)) as (-> & Hq & Hb).
    lia.
Qed.

(** The delay an axis gets out of a negative transit time: the negative
    quotient, stored unsigned. *)
Lemma delay_of_nonpos_time (dt ms : Z) :
  LONG_MIN <= dt <= 0 -> 1 <= ms ->
  to_ulong (Z.quot dt ms) = 0 \/
  2 ^ 31 <= to_ulong (Z.quot dt ms) <= ULONG_MAX.
Proof.
  intros Hdt Hms.
  assert (Hq : dt <= Z.quot dt ms <= 0).
  { assert (E : Z.quot dt ms = - (- dt / ms)).
    { rewrite <- Z.quot_div_nonneg by lia.
      rewrite <- Z.quot_opp_l by lia.
      now rewrite Z.opp_involutive. }
    rewrite E.
    assert (0 <= - dt / ms) by (apply Z.div_pos; lia).
    assert (- dt / ms <= - dt) by (apply Z.div_le_upper_bound; nia).
    lia. }
  unfold to_ulong, ULONG_MAX, LONG_MIN in *.
  destruct (Z.eq_dec (Z.quot dt ms) 0) as [-> | Hnz]; [now left |].
  right.
  rewrite <- (Z.mod_add _ 1 (2 ^ 32)) by lia.
  rewrite Z.mod_small; lia.
Qed.

(** The delay an axis gets out of the transit time [LONG_MIN], the value
    of a double with no [long] value. *)
Lemma delay_of_LONG_MIN (ms : Z) :
  1 <= ms <= LONG_MAX ->
  2 ^ 31 <= to_ulong (Z.quot LONG_MIN ms) <= ULONG_MAX.
Proof.
  intros Hms.
  destruct (delay_of_nonpos_time LONG_MIN ms
              ltac:(unfold LONG_MIN; lia) ltac:(lia)) as [H0 | H];
    [| exact H].
  exfalso.
  assert (Hq : Z.quot LONG_MIN ms <= -1).
  { assert (E : Z.quot LONG_MIN ms = - (- LONG_MIN / ms)).
    { rewrite <- Z.quot_div_nonneg by (unfold LONG_MIN; lia).
      rewrite <- Z.quot_opp_l by lia.
      now rewrite Z.opp_involutive. }
    rewrite E.
    assert (1 <= - LONG_MIN / ms); [| lia].
    apply Z.div_le_lower_bound; unfold LONG_MIN, LONG_MAX in *; lia. }
  assert (Hlo : LONG_MIN <= Z.quot LONG_MIN ms).
  { pose proof (quot_is_long LONG_MIN ms ltac:(lia)
                  ltac:(unfold LONG_MIN, LONG_MAX; lia)). lia. }
  unfold to_ulong in H0.
  rewrite <- (Z.mod_add _ 1 (2 ^ 32)) in H0 by lia.
  rewrite Z.mod_small in H0; unfold LONG_MIN in *; lia.
Qed.

(** On one axis, a displacement in the negative direction: the transit
    time is computed from the signed displacement and is not positive, so
    the delay handed to [prepare_steps] is 0 or, the negative quotient
    being stored unsigned, at least 2^31 microseconds. *)
Theorem negative_dl_delay (sm a : stepper) (dl spd steps sd : Z) :
  0 < distance_per_step sm -> 0 <= spd -> LONG_MIN < dl < 0 ->
  prepare_line sm dl spd = Done (0, [prepare_steps a steps sd]) ->
  steps < 0 /\ (sd = 0 \/ 2 ^ 31 <= sd <= ULONG_MAX).
Proof.
  intros Hd Hspd Hdl H.
  apply prepare_line_done in H.
  destruct H as (q & m & Hq & Hm & [(_ & E & _) | H]); [discriminate E |].
  destruct H as (s & dt & sd' & Hr & Ht & Hsd & _ & Hc).
  injection Hc as <- <- <-.
  rewrite ldiv_pos in Hq by assumption. injection Hq as Hq.
  pose proof (max_spd_range _ _ Hm) as Hmr.
  pose proof (resolve_spd_nonneg _ _ _ (proj1 Hmr) Hspd Hr) as Hs.
  pose proof (transit_time_sign _ _ _ Hs Ht) as Hsign.
  destruct (Z.ltb_spec dl 0) as [_ |]; [| lia].
  pose proof (transit_time_is_long _ _ _ Ht) as Hlong.
  apply step_delay_of_done in Hsd. destruct Hsd as [Hms ->].
  apply mod_steps_of_zero in Hms.
  assert (Hneg : steps <= 0).
  { pose proof (Z.quot_le_mono dl 0 _ Hd ltac:(lia)) as L.
    rewrite Z.quot_0_l in L by lia. lia. }
  assert (Hgt : LONG_MIN < steps).
  { subst steps.
    apply steps_above_LONG_MIN; unfold LONG_MIN, LONG_MAX in *; lia. }
  assert (Hle : steps <= LONG_MAX) by (unfold LONG_MAX; lia).
  rewrite mod_steps_of_abs by lia.
  split; [lia |].
  apply delay_of_nonpos_time; lia.
Qed.

Lemma negative_dl_delay_witness :
  -10 < 0 /\ (4293967296 = 0 \/ 2 ^ 31 <= 4293967296 <= ULONG_MAX).
Proof.
  apply (negative_dl_delay (axis "x" 1000 1000) (axis "x" 1000 1000)
           (-10000) 1000 (-10) 4293967296).
  - reflexivity.
  - lia.
  - unfold LONG_MIN. lia.
  - vm_compute. reflexivity.
Defined.

(** On one axis, a displacement in the positive direction.  Either the
    transit time [dt] is not negative, and then the delay handed to
    [prepare_steps] is below 2^31 and times the step count it is the
    transit time, short of less than one microsecond per step; or the
    double had no [long] value, [dt] is [LONG_MIN], and the delay is the
    negative quotient stored unsigned, at least 2^31. *)
Theorem positive_dl_timing (sm a : stepper) (dl spd steps sd : Z) :
  0 < distance_per_step sm -> 0 <= spd -> 0 < dl <= LONG_MAX ->
  prepare_line sm dl spd = Done (0, [prepare_steps a steps sd]) ->
  exists m s dt,
    max_spd sm = Done m /\ resolve_spd m spd = Some s /\
    transit_time dl s = Done dt /\
    1 <= steps /\
    ((0 <= dt <= LONG_MAX /\ 0 <= sd <= LONG_MAX /\
      sd * steps <= dt < sd * steps + steps) \/
     (dt = LONG_MIN /\ sd = to_ulong (Z.quot LONG_MIN steps) /\
      2 ^ 31 <= sd <= ULONG_MAX)).
Proof.
  intros Hd Hspd Hdl H.
  apply prepare_line_done in H.
  destruct H as (q & m & Hq & Hm & [(_ & E & _) | H]); [discriminate E |].
  destruct H as (s & dt & sd' & Hr & Ht & Hsd & _ & Hc).
  injection Hc as <- <- <-.
  rewrite ldiv_pos in Hq by assumption. injection Hq as Hq.
  pose proof (max_spd_range _ _ Hm) as Hmr.
  pose proof (resolve_spd_nonneg _ _ _ (proj1 Hmr) Hspd Hr) as Hs.
  pose proof (transit_time_sign _ _ _ Hs Ht) as Hsign.
  destruct (Z.ltb_spec dl 0) as [| _]; [lia |].
  pose proof (transit_time_is_long _ _ _ Ht) as Hlong.
  apply step_delay_of_done in Hsd. destruct Hsd as [Hms ->].
  apply mod_steps_of_zero in Hms.
  pose proof (Z.quot_pos dl _ ltac:(lia) Hd) as Hpos.
  pose proof (quot_is_long dl _ Hd
                ltac:(unfold LONG_MIN, LONG_MAX in *; lia)) as Hrange.
  rewrite Hq in Hpos, Hrange.
  assert (Hge : 1 <= steps) by lia.
  exists m, s, dt.
  split; [exact Hm |]. split; [exact Hr |]. split; [exact Ht |].
  split; [exact Hge |].
  destruct Hsign as [Hnn | ->].
  - left.
    destruct (delay_of_nonneg_time dt steps ltac:(lia) Hrange Hms)
      as [Hsd Hb].
    rewrite Z.abs_eq in Hb by lia. split; [lia |]. split; assumption.
  - right. rewrite mod_steps_of_abs, Z.abs_eq by (unfold LONG_MIN; lia).
    split; [reflexivity |]. split; [reflexivity |].
    apply delay_of_LONG_MIN. lia.
Qed.

Lemma positive_dl_timing_witness :
  (exists m s dt,
      max_spd (axis "x" 1000 1000) = Done m /\
      resolve_spd m 0 = Some s /\
      transit_time 1001000 s = Done dt /\
      1 <= 1001 /\
      ((0 <= dt <= LONG_MAX /\ 0 <= 999 <= LONG_MAX /\
        999 * 1001 <= dt < 999 * 1001 + 1001) \/
       (dt = LONG_MIN /\ 999 = to_ulong (Z.quot LONG_MIN 1001) /\
        2 ^ 31 <= 999 <= ULONG_MAX))) /\
  (exists m s dt,
      max_spd (axis "x" 1000 1000) = Done m /\
      resolve_spd m 1000 = Some s /\
      transit_time 2148000 s = Done dt /\
      1 <= 2148 /\
      ((0 <= dt <= LONG_MAX /\ 0 <= 4293967537 <= LONG_MAX /\
        4293967537 * 2148 <= dt < 4293967537 * 2148 + 2148) \/
       (dt = LONG_MIN /\ 4293967537 = to_ulong (Z.quot LONG_MIN 2148) /\
        2 ^ 31 <= 4293967537 <= ULONG_MAX))).
Proof.
  split.
  - apply (positive_dl_timing (axis "x" 1000 1000) (axis "x" 1000 1000)
             1001000 0 1001 999).
    + reflexivity.
    + lia.
    + unfold LONG_MAX. lia.
    + vm_compute. reflexivity.
  - apply (positive_dl_timing (axis "x" 1000 1000) (axis "x" 1000 1000)
             2148000 1000 2148 4293967537).
    + reflexivity.
    + lia.
    + unfold LONG_MAX. lia.
    + vm_compute. reflexivity.
Defined.

(** On two axes both delays come from one transit time [dt].  When [dt]
    is not negative, each delay is below 2^31 and, times the step count of
    its axis, it is [dt] short of less than one microsecond per step.
    When [dt] is negative (a path length or a transit time with no [long]
    value), each delay is 0 or at least 2^31.  So whenever both delays
    are below 2^31, the two axes finish within fewer microseconds of each
    other than the larger step count. *)
Theorem two_axis_timing (sm1 sm2 a b : stepper)
    (dl1 dl2 spd s1 s2 sd1 sd2 : Z) :
  0 < distance_per_step sm1 -> 0 < distance_per_step sm2 ->
  LONG_MIN < dl1 <= LONG_MAX -> LONG_MIN < dl2 <= LONG_MAX ->
  prepare_line_2d sm1 sm2 dl1 dl2 spd
  = Done (0, [prepare_steps a s1 sd1; prepare_steps b s2 sd2]) ->
  exists m s dl dt,
    max_spd_2d sm1 sm2 = Done m /\ resolve_spd m spd = Some s /\
    path_length dl1 dl2 = Done dl /\ (0 <= dl \/ dl = LONG_MIN) /\
    transit_time dl s = Done dt /\
    (0 <= dt ->
       0 <= sd1 <= LONG_MAX /\ 0 <= sd2 <= LONG_MAX /\
       sd1 * Z.abs s1 <= dt < sd1 * Z.abs s1 + Z.abs s1 /\
       sd2 * Z.abs s2 <= dt < sd2 * Z.abs s2 + Z.abs s2) /\
    (dt < 0 ->
       (sd1 = 0 \/ 2 ^ 31 <= sd1 <= ULONG_MAX) /\
       (sd2 = 0 \/ 2 ^ 31 <= sd2 <= ULONG_MAX)) /\
    (sd1 < 2 ^ 31 -> sd2 < 2 ^ 31 ->
       Z.abs (sd1 * Z.abs s1 - sd2 * Z.abs s2)
       < Z.max (Z.abs s1) (Z.abs s2)).
Proof.
  intros Hd1 Hd2 Hdl1 Hdl2 H.
  apply prepare_line_2d_done in H.
  destruct H as (q1 & q2 & m & Hq1 & Hq2 & Hm & [(_ & E & _) | H]);
    [discriminate E |].
  destruct H as (s & dl & dt & d1 & d2 & Hr & Hl & Ht & E1 & E2 & _ & Hc).
  injection Hc as <- <- <- <- <- <-.
  rewrite ldiv_pos in Hq1, Hq2 by assumption.
  injection Hq1 as Hq1. injection Hq2 as Hq2.
  pose proof (path_length_sign _ _ _ Hl) as Hlen.
  pose proof (transit_time_is_long _ _ _ Ht) as Hlong.
  apply step_delay_of_done in E1, E2.
  destruct E1 as [N1 ->], E2 as [N2 ->].
  apply mod_steps_of_zero in N1, N2.
  assert (R : forall x d, 0 < d -> LONG_MIN < x <= LONG_MAX ->
            LONG_MIN < Z.quot x d <= LONG_MAX).
  { intros x d Hd Hx. split.
    - apply steps_above_LONG_MIN; unfold LONG_MIN, LONG_MAX in *; lia.
    - apply quot_is_long; unfold LONG_MIN, LONG_MAX in *; lia. }
  pose proof (R _ _ Hd1 Hdl1) as R1. pose proof (R _ _ Hd2 Hdl2) as R2.
  rewrite Hq1 in R1. rewrite Hq2 in R2.
  assert (P : 0 <= dt ->
            (0 <= to_ulong (Z.quot dt (mod_steps_of s1)) <= LONG_MAX /\
             0 <= to_ulong (Z.quot dt (mod_steps_of s2)) <= LONG_MAX /\
             to_ulong (Z.quot dt (mod_steps_of s1)) * Z.abs s1 <= dt
               < to_ulong (Z.quot dt (mod_steps_of s1)) * Z.abs s1
                 + Z.abs s1 /\
             to_ulong (Z.quot dt (mod_steps_of s2)) * Z.abs s2 <= dt
               < to_ulong (Z.quot dt (mod_steps_of s2)) * Z.abs s2
                 + Z.abs s2)).
  { intros Hnn.
    destruct (delay_of_nonneg_time dt s1 ltac:(lia) ltac:(lia) N1)
      as [B1 T1].
    destruct (delay_of_nonneg_time dt s2 ltac:(lia) ltac:(lia) N2)
      as [B2 T2].
    auto. }
  assert (Q : dt < 0 ->
            (to_ulong (Z.quot dt (mod_steps_of s1)) = 0 \/
             2 ^ 31 <= to_ulong (Z.quot dt (mod_steps_of s1)) <= ULONG_MAX)
            /\
            (to_ulong (Z.quot dt (mod_steps_of s2)) = 0 \/
             2 ^ 31 <= to_ulong (Z.quot dt (mod_steps_of s2)) <= ULONG_MAX)).
  { intros Hneg.
    rewrite !mod_steps_of_abs by lia.
    split; apply delay_of_nonpos_time; lia. }
  exists m, s, dl, dt.
  split; [exact Hm |]. split; [exact Hr |]. split; [exact Hl |].
  split; [exact Hlen |]. split; [exact Ht |].
  split; [exact P |]. split; [exact Q |].
  intros L1 L2.
  destruct (Z_le_gt_dec 0 dt) as [Hnn | Hneg].
  - destruct (P Hnn) as (_ & _ & T1 & T2). lia.
  - destruct (Q ltac:(lia)) as [[-> | G1] [-> | G2]]; lia.
Qed.

Lemma two_axis_timing_witness :
  exists m s dl dt,
    max_spd_2d (axis "x" 1000 1000) (axis "y" 1000 1000) = Done m /\
    resolve_spd m 0 = Some s /\
    path_length (-3000) 4000 = Done dl /\ (0 <= dl \/ dl = LONG_MIN) /\
    transit_time dl s = Done dt /\
    (0 <= dt ->
       0 <= 1666 <= LONG_MAX /\ 0 <= 1250 <= LONG_MAX /\
       1666 * Z.abs (-3) <= dt < 1666 * Z.abs (-3) + Z.abs (-3) /\
       1250 * Z.abs 4 <= dt < 1250 * Z.abs 4 + Z.abs 4) /\
    (dt < 0 ->
       (1666 = 0 \/ 2 ^ 31 <= 1666 <= ULONG_MAX) /\
       (1250 = 0 \/ 2 ^ 31 <= 1250 <= ULONG_MAX)) /\
    (1666 < 2 ^ 31 -> 1250 < 2 ^ 31 ->
       Z.abs (1666 * Z.abs (-3) - 1250 * Z.abs 4)
       < Z.max (Z.abs (-3)) (Z.abs 4)).
Proof.
  apply (two_axis_timing (axis "x" 1000 1000) (axis "y" 1000 1000)
           (axis "x" 1000 1000) (axis "y" 1000 1000)
           (-3000) 4000 0 (-3) 4 1666 1250).
  - reflexivity.
  - reflexivity.
  - unfold LONG_MIN, LONG_MAX. lia.
  - unfold LONG_MIN, LONG_MAX. lia.
  - vm_compute. reflexivity.
Defined.

(** ** An axis with a maximum speed of 0 *)

(** On an axis whose step is so small against its pulse delay that the
    maximum speed comes out as 0, every nonzero speed is too fast, and the
    sentinel 0 divides by 0.0: the quotient is an infinity or not a
    number, the transit time is [LONG_MIN], and a displacement of at least
    one step is planned, with status 0, at a delay of
    [LONG_MIN / |steps|] stored unsigned, at least 2^31 microseconds. *)
Theorem zero_max_spd_axis (sm : stepper) (dl spd : Z) :
  0 < distance_per_step sm ->
  distance_per_step sm * 1000 < pulse_delay sm ->
  distance_per_step sm * 1000 <= ULONG_MAX ->
  LONG_MIN < dl <= LONG_MAX ->
  distance_per_step sm <= Z.abs dl ->
  max_spd sm = Done 0 /\
  (0 < spd ->
     prepare_line sm dl spd = Done (STEPPER_MATH_ERR_TOO_FAST, [])) /\
  transit_time dl 0 = Done LONG_MIN /\
  exists sd,
    prepare_line sm dl 0
    = Done (0, [prepare_steps sm (Z.quot dl (distance_per_step sm)) sd]) /\
    sd = to_ulong
           (Z.quot LONG_MIN (Z.abs (Z.quot dl (distance_per_step sm)))) /\
    2 ^ 31 <= sd <= ULONG_MAX.
Proof.
  intros Hd Hp Hfit Hdl Hfull.
  assert (Hm : max_spd sm = Done 0).
  { rewrite max_spd_no_wrap; try lia.
    - now rewrite Z.div_small by lia.
    - rewrite Z.div_small by lia. unfold ULONG_MAX. lia. }
  split; [exact Hm |]. split.
  { intros Hspd.
    rewrite (prepare_line_unfold sm dl spd _ _ (ldiv_pos _ _ Hd) Hm).
    now rewrite resolve_spd_too_fast by lia. }
  split; [apply transit_time_zero_speed |].
  set (steps := Z.quot dl (distance_per_step sm)).
  assert (Hgt : LONG_MIN < steps)
    by (apply steps_above_LONG_MIN;
        unfold LONG_MIN, LONG_MAX in *; lia).
  assert (Hr : LONG_MIN <= steps <= LONG_MAX)
    by (apply quot_is_long; unfold LONG_MIN, LONG_MAX in *; lia).
  pose proof (quot_full_step dl _ Hd Hfull) as Hge. fold steps in Hge.
  eexists. split; [| split; [reflexivity |]].
  - rewrite (prepare_line_unfold sm dl 0 _ _ (ldiv_pos _ _ Hd) Hm).
    rewrite resolve_spd_zero. unfold line_timing.
    rewrite transit_time_zero_speed. cbn [bind].
    fold steps. rewrite mod_steps_of_abs by lia.
    rewrite step_delay_of_defined by lia. reflexivity.
  - apply delay_of_LONG_MIN. unfold LONG_MIN, LONG_MAX in *. lia.
Qed.

Lemma zero_max_spd_axis_witness :
  max_spd (axis "x" 1 2000) = Done 0 /\
  prepare_line (axis "x" 1 2000) 5000 1 = Done (STEPPER_MATH_ERR_TOO_FAST, []) /\
  prepare_line (axis "x" 1 2000) 5000 0
  = Done (0, [prepare_steps (axis "x" 1 2000) 5000 4294537800]).
Proof.
  destruct (zero_max_spd_axis (axis "x" 1 2000) 5000 1)
    as (Hm & Hfast & _ & sd & Hplan & Hsd & _).
  - reflexivity.
  - reflexivity.
  - vm_compute. discriminate.
  - unfold LONG_MIN, LONG_MAX. lia.
  - simpl. lia.
  - split; [exact Hm |]. split; [apply Hfast; reflexivity |].
    rewrite Hplan, Hsd. reflexivity.
Defined.

(** ** Faults *)

(** On axes with positive step and pulse delay, the planners have one way
    to fail: the division by a zero step count, which only a displacement
    shorter than one step brings about.  [LONG_MIN / -1] never arises. *)
Theorem planner_faults (sm1 sm2 : stepper) (dl1 dl2 spd : Z) (f : fault) :
  0 < distance_per_step sm1 -> 0 < pulse_delay sm1 ->
  0 < distance_per_step sm2 -> 0 < pulse_delay sm2 ->
  LONG_MIN <= dl1 <= LONG_MAX -> LONG_MIN <= dl2 <= LONG_MAX ->
  (prepare_line sm1 dl1 spd = Fault f ->
     f = DivisionByZero /\ Z.abs dl1 < distance_per_step sm1) /\
  (prepare_line_2d sm1 sm2 dl1 dl2 spd = Fault f ->
     f = DivisionByZero /\
     (Z.abs dl1 < distance_per_step sm1 \/
      Z.abs dl2 < distance_per_step sm2)).
Proof.
  intros Hd1 Hp1 Hd2 Hp2 Hdl1 Hdl2.
  pose proof (max_spd_value sm1 ltac:(lia)) as M1.
  pose proof (max_spd_value sm2 ltac:(lia)) as M2.
  pose proof (max_spd_2d_min _ _ _ _ M1 M2) as M.
  assert (D : forall dl d, 0 < d -> LONG_MIN <= dl <= LONG_MAX ->
            (Z.abs dl < d /\ mod_steps_of (Z.quot dl d) = 0) \/
            (mod_steps_of (Z.quot dl d) <> 0 /\
             mod_steps_of (Z.quot dl d) <> -1)).
  { intros dl d Hd Hdl.
    destruct (Z_lt_le_dec (Z.abs dl) d) as [Hs | Hfull].
    - left. split; [exact Hs | now rewrite quot_short].
    - right. apply mod_steps_of_divisor; [now apply quot_is_long |].
      pose proof (quot_full_step dl d Hd Hfull). lia. }
  split.
  - rewrite (prepare_line_unfold sm1 dl1 spd _ _ (ldiv_pos _ _ Hd1) M1).
    destruct (resolve_spd _ spd) as [s |]; [| discriminate].
    destruct (D dl1 _ Hd1 Hdl1) as [[Hs Hz] | [N0 N1]].
    + rewrite Hz, line_timing_div0. intros [= <-]. auto.
    + destruct (line_timing_value sm1 dl1 (Z.quot dl1 (distance_per_step sm1))
                  _ s N0 N1) as (dt & _ & E).
      rewrite E. discriminate.
  - rewrite (prepare_line_2d_unfold sm1 sm2 dl1 dl2 spd _ _ _
               (ldiv_pos _ _ Hd1) (ldiv_pos _ _ Hd2) M).
    destruct (resolve_spd _ spd) as [s |]; [| discriminate].
    destruct (D dl1 _ Hd1 Hdl1) as [[Hs1 Hz1] | [A0 A1]].
    + rewrite line_2d_timing_div0 by (left; exact Hz1).
      intros [= <-]. auto.
    + destruct (D dl2 _ Hd2 Hdl2) as [[Hs2 Hz2] | [B0 B1]].
      * rewrite line_2d_timing_div0 by (right; split; assumption).
        intros [= <-]. auto.
      * destruct (line_2d_timing_value sm1 sm2 dl1 dl2
                    (Z.quot dl1 (distance_per_step sm1))
                    (Z.quot dl2 (distance_per_step sm2)) _ _ s A0 A1 B0 B1)
          as (dl & dt & _ & _ & E).
        rewrite E. discriminate.
Qed.

Lemma planner_faults_witness :
  (prepare_line (axis "x" 1000 1000) 500 1000 = Fault DivisionByZero ->
     DivisionByZero = DivisionByZero /\ Z.abs 500 < 1000) /\
  prepare_line (axis "x" 1000 1000) 500 1000 = Fault DivisionByZero.
Proof.
  assert (R : LONG_MIN <= 500 <= LONG_MAX /\ LONG_MIN <= 4000 <= LONG_MAX)
    by (unfold LONG_MIN, LONG_MAX; lia).
  destruct R as [R1 R2].
  destruct (planner_faults (axis "x" 1000 1000) (axis "y" 1000 1000)
              500 4000 1000 DivisionByZero) as [H _];
    try reflexivity; try assumption.
  split; [exact H | vm_compute; reflexivity].
Defined.

(** ** Absolute targets out of reach of a [long] difference *)

(** When target and position are more than [LONG_MAX] apart, the
    difference [cvalue - current_pos] wraps around and [prepare_line_abs]
    plans the move the other way: for a target above the position the
    planner runs on a negative displacement and every plan it returns has
    a negative step count; for a target below the position, a positive
    one. *)
Theorem abs_target_wraps (sm : stepper) (cvalue spd : Z) :
  0 < distance_per_step sm ->
  LONG_MIN <= cvalue <= LONG_MAX ->
  LONG_MIN <= current_pos sm <= LONG_MAX ->
  (LONG_MAX < cvalue - current_pos sm ->
     cvalue - current_pos sm - 2 ^ 32 < 0 /\
     prepare_line_abs sm cvalue spd
     = prepare_line sm (cvalue - current_pos sm - 2 ^ 32) spd /\
     forall a steps sd,
       prepare_line_abs sm cvalue spd
       = Done (0, [prepare_steps a steps sd]) -> steps < 0) /\
  (cvalue - current_pos sm < LONG_MIN ->
     0 < cvalue - current_pos sm + 2 ^ 32 /\
     prepare_line_abs sm cvalue spd
     = prepare_line sm (cvalue - current_pos sm + 2 ^ 32) spd /\
     forall a steps sd,
       prepare_line_abs sm cvalue spd
       = Done (0, [prepare_steps a steps sd]) -> 0 < steps).
Proof.
  intros Hd Hc Hp.
  assert (S : forall dl a steps sd,
            prepare_line sm dl spd = Done (0, [prepare_steps a steps sd]) ->
            steps <> 0 /\ 0 <= steps * dl).
  { intros dl a steps sd H.
    apply prepare_line_done in H.
    destruct H as (q & m & Hq & _ & [(_ & E & _) | H]);
      [discriminate E |].
    destruct H as (s & dt & sd' & _ & _ & Hsd & _ & Hcalls).
    injection Hcalls as <- <- <-.
    rewrite ldiv_pos in Hq by assumption. injection Hq as <-.
    apply step_delay_of_done in Hsd. destruct Hsd as [Hms _].
    apply mod_steps_of_zero in Hms.
    split; [exact Hms | apply steps_truncation; assumption]. }
  assert (W1 : LONG_MAX < cvalue - current_pos sm ->
               lsub cvalue (current_pos sm)
               = cvalue - current_pos sm - 2 ^ 32).
  { intros Hfar. unfold lsub, to_long, LONG_MIN, LONG_MAX in *.
    rewrite <- (Z.mod_add _ (-1) (2 ^ 32)) by lia.
    rewrite Z.mod_small; lia. }
  assert (W2 : cvalue - current_pos sm < LONG_MIN ->
               lsub cvalue (current_pos sm)
               = cvalue - current_pos sm + 2 ^ 32).
  { intros Hfar. unfold lsub, to_long, LONG_MIN, LONG_MAX in *.
    rewrite <- (Z.mod_add _ 1 (2 ^ 32)) by lia.
    rewrite Z.mod_small; lia. }
  unfold prepare_line_abs.
  split; intros Hfar.
  - rewrite (W1 Hfar).
    assert (Hneg : cvalue - current_pos sm - 2 ^ 32 < 0)
      by (unfold LONG_MIN, LONG_MAX in *; lia).
    split; [exact Hneg |]. split; [reflexivity |].
    intros a steps sd H. destruct (S _ _ _ _ H) as [Hnz Hsg]. nia.
  - rewrite (W2 Hfar).
    assert (Hpos : 0 < cvalue - current_pos sm + 2 ^ 32)
      by (unfold LONG_MIN, LONG_MAX in *; lia).
    split; [exact Hpos |]. split; [reflexivity |].
    intros a steps sd H. destruct (S _ _ _ _ H) as [Hnz Hsg]. nia.
Qed.

Lemma abs_target_wraps_witness :
  let sm := {| name := "x"; distance_per_step := 1000;
               pulse_delay := 1; current_pos := -2000000000 |} in
  prepare_line_abs sm 1000000000 0
  = Done (0, [prepare_steps sm (-1294967) 4294967295]) /\
  -1294967 < 0.
Proof.
  intros sm.
  destruct (abs_target_wraps sm 1000000000 0) as [H _].
  - reflexivity.
  - unfold LONG_MIN, LONG_MAX. lia.
  - unfold LONG_MIN, LONG_MAX. simpl. lia.
  - destruct H as (_ & _ & Hdir); [unfold LONG_MAX; simpl; lia |].
    assert (E : prepare_line_abs sm 1000000000 0
                = Done (0, [prepare_steps sm (-1294967) 4294967295]))
      by (vm_compute; reflexivity).
    split; [exact E | exact (Hdir _ _ _ E)].
Defined.

(** ** Directions on two axes *)

Lemma mod_steps_of_opp (steps : Z) :
  LONG_MIN < steps <= LONG_MAX ->
  mod_steps_of (- steps) = mod_steps_of steps.
Proof.
  intros Hs.
  rewrite !mod_steps_of_abs; unfold LONG_MIN, LONG_MAX in *; lia.
Qed.

Lemma line_2d_timing_opp (sm1 sm2 : stepper)
    (dl1 dl2 s1 s2 ms1 ms2 spd : Z) :
  line_2d_timing sm1 sm2 (- dl1) dl2 s1 s2 ms1 ms2 spd
  = line_2d_timing sm1 sm2 dl1 dl2 s1 s2 ms1 ms2 spd /\
  line_2d_timing sm1 sm2 dl1 (- dl2) s1 s2 ms1 ms2 spd
  = line_2d_timing sm1 sm2 dl1 dl2 s1 s2 ms1 ms2 spd.
Proof.
  unfold line_2d_timing.
  destruct (path_length_opp dl1 dl2) as [-> ->]. auto.
Qed.

(** On two axes, turning one displacement around turns its step count
    around and changes nothing else: both delays stay as they were (on one
    axis they do not, see [negative_dl_delay]). *)
Theorem two_axis_direction (sm1 sm2 a b : stepper)
    (dl1 dl2 spd s1 s2 sd1 sd2 : Z) :
  0 < distance_per_step sm1 -> 0 < distance_per_step sm2 ->
  LONG_MIN < dl1 <= LONG_MAX -> LONG_MIN < dl2 <= LONG_MAX ->
  prepare_line_2d sm1 sm2 dl1 dl2 spd
  = Done (0, [prepare_steps a s1 sd1; prepare_steps b s2 sd2]) ->
  prepare_line_2d sm1 sm2 (- dl1) dl2 spd
  = Done (0, [prepare_steps a (- s1) sd1; prepare_steps b s2 sd2]) /\
  prepare_line_2d sm1 sm2 dl1 (- dl2) spd
  = Done (0, [prepare_steps a s1 sd1; prepare_steps b (- s2) sd2]).
Proof.
  intros Hd1 Hd2 Hdl1 Hdl2 H.
  apply prepare_line_2d_done in H.
  destruct H as (q1 & q2 & m & Hq1 & Hq2 & Hm & [(_ & E & _) | H]);
    [discriminate E |].
  destruct H as (s & dl & dt & d1 & d2 & Hr & Hl & Ht & E1 & E2 & _ & Hc).
  injection Hc as -> -> -> -> -> ->.
  assert (G : forall dl d q, 0 < d -> LONG_MIN < dl <= LONG_MAX ->
             ldiv dl d = Done q ->
             ldiv (- dl) d = Done (- q) /\
             mod_steps_of (- q) = mod_steps_of q).
  { intros x d q Hd Hx Hq.
    rewrite ldiv_pos in Hq by assumption. injection Hq as <-.
    split; [rewrite ldiv_pos, Z.quot_opp_l by lia; reflexivity |].
    apply mod_steps_of_opp. split.
    - apply steps_above_LONG_MIN; unfold LONG_MIN, LONG_MAX in *; lia.
    - apply quot_is_long; unfold LONG_MIN, LONG_MAX in *; lia. }
  destruct (G _ _ _ Hd1 Hdl1 Hq1) as [O1 A1].
  destruct (G _ _ _ Hd2 Hdl2 Hq2) as [O2 A2].
  assert (T' : forall q1' q2',
             line_2d_timing sm1 sm2 dl1 dl2 q1' q2'
               (mod_steps_of q1) (mod_steps_of q2) s
             = Done (0, [prepare_steps sm1 q1' d1;
                         prepare_steps sm2 q2' d2])).
  { intros q1' q2'. unfold line_2d_timing.
    rewrite Hl. cbn [bind]. rewrite Ht. cbn [bind].
    rewrite E1. cbn [bind]. rewrite E2. reflexivity. }
  split.
  - rewrite (prepare_line_2d_unfold _ _ _ _ _ _ _ _ O1 Hq2 Hm), Hr.
    rewrite (proj1 (line_2d_timing_opp _ _ _ _ _ _ _ _ _)), A1.
    apply T'.
  - rewrite (prepare_line_2d_unfold _ _ _ _ _ _ _ _ Hq1 O2 Hm), Hr.
    rewrite (proj2 (line_2d_timing_opp _ _ _ _ _ _ _ _ _)), A2.
    apply T'.
Qed.

Lemma two_axis_direction_witness :
  let x := axis "x" 1000 1000 in
  let y := axis "y" 1000 1000 in
  prepare_line_2d x y (- 3000) 4000 0
  = Done (0, [prepare_steps x (- 3) 1666; prepare_steps y 4 1250]) /\
  prepare_line_2d x y 3000 (- 4000) 0
  = Done (0, [prepare_steps x 3 1666; prepare_steps y (- 4) 1250]).
Proof.
  intros x y.
  apply (two_axis_direction x y x y 3000 4000 0 3 4 1666 1250).
  - reflexivity.
  - reflexivity.
  - unfold LONG_MIN, LONG_MAX. lia.
  - unfold LONG_MIN, LONG_MAX. lia.
  - vm_compute. reflexivity.
Defined.

(** ** The guard is on the safe side *)

Lemma to_ulong_le (z : Z) : 0 <= z -> to_ulong z <= z.
Proof.
  intros Hz. unfold to_ulong. apply Z.mod_le; lia.
Qed.

(** Wrapped or not, the maximum speed the code computes is never above
    the exact quotient; so a speed the guard lets through, the sentinel
    included, never asks for steps closer together than the pulse delay:
    [speed * pulse_delay <= distance_per_step * 1000000]. *)
Theorem max_spd_never_above_exact (sm : stepper) :
  0 <= distance_per_step sm -> 0 < pulse_delay sm ->
  exists v : Z,
    max_spd sm = Done v /\
    0 <= v <= spec_max_spd (distance_per_step sm) (pulse_delay sm) /\
    forall spd s,
      0 <= spd -> resolve_spd v spd = Some s ->
      0 <= s /\ s * pulse_delay sm <= distance_per_step sm * 1000000.
Proof.
  intros Hd Hp.
  pose proof (max_spd_value sm ltac:(lia)) as Hm.
  pose proof (max_spd_range _ _ Hm) as Hr.
  set (d := distance_per_step sm) in *.
  set (p := pulse_delay sm) in *.
  assert (Hv : umul (umul d 1000 / p) 1000 <= spec_max_spd d p).
  { unfold umul.
    assert (H1 : to_ulong (d * 1000) <= d * 1000)
      by (apply to_ulong_le; lia).
    assert (H0 : 0 <= to_ulong (d * 1000)) by apply to_ulong_range.
    assert (H2 : to_ulong (d * 1000) / p <= d * 1000 / p)
      by (apply Z.div_le_mono; lia).
    assert (H3 : 0 <= to_ulong (d * 1000) / p)
      by (apply Z.div_pos; lia).
    pose proof (to_ulong_le (to_ulong (d * 1000) / p * 1000) ltac:(lia)).
    pose proof (three_stage_error d p Hd Hp). lia. }
  eexists. split; [exact Hm |]. split; [lia |].
  intros spd s Hspd Hs.
  apply resolve_spd_some in Hs.
  assert (Hle : s <= spec_max_spd d p) by lia.
  split; [lia |].
  unfold spec_max_spd in Hle.
  pose proof (Z.mul_div_le (d * 1000000) p Hp). nia.
Qed.

Lemma max_spd_never_above_exact_witness :
  exists v : Z,
    max_spd (axis "x" 100000 1) = Done v /\
    0 <= v <= spec_max_spd 100000 1 /\
    forall spd s,
      0 <= spd -> resolve_spd v spd = Some s ->
      0 <= s /\ s * 1 <= 100000 * 1000000.
Proof.
  apply (max_spd_never_above_exact (axis "x" 100000 1)); simpl; lia.
Defined.
